(** * catalog-service: the repository ingestion pipeline

    A shallow embedding of the Go code that discovers MCP server
    repositories, analyses their README with a language model and persists
    one row per repository in the [repositories] table.

    - [Strings]: the functions of Go's [strings] and [slices] packages that
      the pipeline calls.
    - [types], [github]: the structs of [pkg/types/types.go] and the fields
      read from the GitHub client's answers.
    - [Store]: the [repositories] table and the SQL statements issued on it.
    - [Services], [JSON], [M]: the outside services, [encoding/json], and
      the monad of a run, which threads the table and a trace of calls.
    - [utils]: [MarkPreferred], [SaveRepo], [AnalyzeWithOpenAI],
      [ScrapeToolDefinitions] and [UpdateRepo] of package [utils].
    - [derive], [server]: [AddRepo] and the deduplication loop of
      [searchReposByReadme] in [pkg/server/collect.go].
    - [server_refactored]: the later [AddRepo], which fills a missing icon
      and delegates to [utils.UpdateRepo].
    - [sample]: one repository, its README in three versions, and services
      to run the model on them.
    - [server_crawl]: the batch loop and the processing loop of
      [searchReposByReadme], around the deduplication.
    - [routes]: [addRepoHandler] of [pkg/server/routes.go].
    - [sample_more]: search results, a second row and failing services for
      the sample.
    - [sample_faults]: the sample with a database whose [SELECT] fails, and
      with one that refuses the empty text in a [JSONB] column.

    The theorems follow the definitions: [MarkPreferred], the
    deduplication, [SaveRepo], then the runs of [AddRepo] and
    [UpdateRepo]; after them, further properties of the same functions, of
    the loops and of the handler. *)

From Stdlib Require Import ZArith Lia String Ascii.
From stdpp Require Import base option list gmap strings fin_maps.

Open Scope string_scope.

(** ** Go's [strings] and [slices] helpers *)

Module Strings.

(** [strings.Contains(s, substr)]. *)
Fixpoint Contains (s substr : string) : bool :=
  String.prefix substr s ||
  match s with
  | EmptyString => false
  | String _ rest => Contains rest substr
  end.

(** [strings.Split(s, sep)] for a separator of one byte, the only kind the
    pipeline uses (["/"] and [","]).  As in Go the result is never empty:
    splitting [""] gives [[""]]. *)
Fixpoint Split (s : string) (sep : ascii) : list string :=
  match s with
  | EmptyString => [EmptyString]
  | String c rest =>
      if Ascii.eqb c sep then EmptyString :: Split rest sep
      else match Split rest sep with
           | [] => [String c EmptyString]
           | p :: ps => String c p :: ps
           end
  end.

(** [strings.Join(elems, sep)]. *)
Fixpoint Join (elems : list string) (sep : string) : string :=
  match elems with
  | [] => EmptyString
  | [e] => e
  | e :: rest => e ++ sep ++ Join rest sep
  end.

(** [slices.Contains(s, v)] on a slice of strings. *)
Definition slices_Contains (s : list string) (v : string) : bool :=
  existsb (String.eqb v) s.

End Strings.

(** ** The structs of [pkg/types] *)

Module types.

(** [MCPPair]: one environment variable or HTTP header of a config. *)
Record MCPPair := {
  pair_Key : string;
  pair_Value : string;
  pair_Name : string;
  pair_Description : string;
  pair_Required : bool;
  pair_Sensitive : bool
}.

(** [MCPServerConfig]: one launch variant extracted from a README. *)
Record MCPServerConfig := {
  Env : list MCPPair;
  Command : string;
  Args : list string;
  HTTPHeaders : list MCPPair;
  cfg_URL : string;
  URLDescription : string;
  Preferred : bool
}.

(** [cfg.Preferred = true], the only field assignment on a config. *)
Definition setPreferred (cfg : MCPServerConfig) : MCPServerConfig :=
  {| Env := Env cfg; Command := Command cfg; Args := Args cfg;
     HTTPHeaders := HTTPHeaders cfg; cfg_URL := cfg_URL cfg;
     URLDescription := URLDescription cfg; Preferred := true |}.

(** [MCPServerManifest]: what the language model is asked to return. *)
Record MCPServerManifest := {
  Name : string;
  mf_Description : string;
  Category : string;
  Configs : list MCPServerConfig
}.

(** The zero value [var result types.MCPServerManifest]. *)
Definition zeroManifest : MCPServerManifest :=
  {| Name := ""; mf_Description := ""; Category := ""; Configs := [] |}.

(** [RepoInfo]. *)
Record RepoInfo := {
  ID : Z;
  Path : string;
  DisplayName : string;
  FullName : string;
  URL : string;
  Description : string;
  Stars : Z;
  ReadmeContent : string;
  Language : string;
  Metadata : string;
  License : string;
  Icon : string;
  Manifest : string;
  (** Modelled from the spec: the field [ProposedManifest], which [AddRepo],
      [UpdateRepo] and [SaveRepo] assign and read but the struct as declared
      lacks; the pending manifest awaiting approval, a string like
      [Manifest]. *)
  ProposedManifest : string;
  ToolDefinitions : string
}.

(** The zero value [var repoFromDB types.RepoInfo]. *)
Definition zeroRepoInfo : RepoInfo :=
  {| ID := 0; Path := ""; DisplayName := ""; FullName := ""; URL := "";
     Description := ""; Stars := 0; ReadmeContent := ""; Language := "";
     Metadata := ""; License := ""; Icon := ""; Manifest := "";
     ProposedManifest := ""; ToolDefinitions := "" |}.

End types.

(** ** The GitHub client, as far as the pipeline reads its answers *)

Module github.

(** [github.Repository]: the fields read through [GetHTMLURL],
    [GetDefaultBranch], [GetDescription], [GetStargazersCount],
    [GetLanguage], [GetOwner().GetAvatarURL()] and the dereferenced
    [FullName], [Name] and [Owner.Login]. *)
Record Repository := {
  FullName : string;
  Name : string;
  OwnerLogin : string;
  OwnerAvatarURL : string;
  HTMLURL : string;
  DefaultBranch : string;
  Description : string;
  StargazersCount : Z;
  Language : string
}.

(** [github.CodeResult]: one hit of a code search. *)
Record CodeResult := {
  Repo : Repository;
  Path : string
}.

End github.

(** ** The [repositories] table *)

Module Store.

(** One row of [repositories], without the key [full_name] (the table is a
    map from it, the column being [UNIQUE]) and without [id] and
    [created_at], which the database assigns and no statement of the
    pipeline writes. *)
Record Row := {
  url : string;
  description : string;
  display_name : string;
  stars : Z;
  readme_content : string;
  language : string;
  path : string;
  manifest : string;
  icon : string;
  metadata : string;
  tool_definitions : string;
  (** Modelled from the spec: the column [proposed_manifest], which the
      statements of [SaveRepo] write but [CREATE TABLE] as given lacks; a
      JSON blob next to [manifest], [NULL] until a statement sets it (the
      [INSERT] leaves it out, approval resets it to [NULL]). *)
  proposed_manifest : option string
}.

(** The statements [SaveRepo] and [AddRepo] pass to [db.Exec], with their
    positional parameters in the order of the SQL text. *)
Inductive Stmt :=
  (** [UPDATE repositories SET url = $1, description = $2, display_name = $3,
      stars = $4, readme_content = $5, language = $6, path = $7,
      manifest = $8, icon = $9, metadata = $10, tool_definitions = $11,
      proposed_manifest = $12 WHERE full_name = $13] *)
  | UpdateAccepted (p1 p2 p3 : string) (p4 : Z)
      (p5 p6 p7 p8 p9 p10 p11 p12 p13 : string)
  (** [UPDATE repositories SET url = $1, description = $2, display_name = $3,
      stars = $4, readme_content = $5, language = $6, path = $7,
      proposed_manifest = $8, icon = $9, metadata = $10,
      tool_definitions = $11 WHERE full_name = $12] *)
  | UpdateProposed (p1 p2 p3 : string) (p4 : Z)
      (p5 p6 p7 p8 p9 p10 p11 p12 : string)
  (** [INSERT INTO repositories (full_name, url, description, display_name,
      stars, readme_content, language, path, manifest, icon, metadata,
      tool_definitions) VALUES ($1, ..., $12)] *)
  | Insert (p1 p2 p3 p4 : string) (p5 : Z)
      (p6 p7 p8 p9 p10 p11 p12 : string)
  (** [UPDATE repositories SET icon = $1 WHERE full_name = $2] *)
  | UpdateIcon (p1 p2 : string).

(** What an accepted statement does to the table.  An [UPDATE] changes the
    row with the given [full_name] if there is one.  An [INSERT] adds a
    row; on a [full_name] already present it violates the [UNIQUE]
    constraint and gives no table. *)
Definition apply (s : Stmt) (t : gmap string Row) : option (gmap string Row) :=
  match s with
  | UpdateAccepted p1 p2 p3 p4 p5 p6 p7 p8 p9 p10 p11 p12 p13 =>
      Some (alter (λ _, {| url := p1; description := p2; display_name := p3;
                           stars := p4; readme_content := p5; language := p6;
                           path := p7; manifest := p8; icon := p9;
                           metadata := p10; tool_definitions := p11;
                           proposed_manifest := Some p12 |}) p13 t)
  | UpdateProposed p1 p2 p3 p4 p5 p6 p7 p8 p9 p10 p11 p12 =>
      Some (alter (λ r, {| url := p1; description := p2; display_name := p3;
                           stars := p4; readme_content := p5; language := p6;
                           path := p7; manifest := manifest r; icon := p9;
                           metadata := p10; tool_definitions := p11;
                           proposed_manifest := Some p8 |}) p12 t)
  | Insert p1 p2 p3 p4 p5 p6 p7 p8 p9 p10 p11 p12 =>
      match t !! p1 with
      | Some _ => None
      | None =>
          Some (<[p1 := {| url := p2; description := p3; display_name := p4;
                           stars := p5; readme_content := p6; language := p7;
                           path := p8; manifest := p9; icon := p10;
                           metadata := p11; tool_definitions := p12;
                           proposed_manifest := None |}]> t)
      end
  | UpdateIcon p1 p2 =>
      Some (alter (λ r, {| url := url r; description := description r;
                           display_name := display_name r; stars := stars r;
                           readme_content := readme_content r;
                           language := language r; path := path r;
                           manifest := manifest r; icon := p1;
                           metadata := metadata r;
                           tool_definitions := tool_definitions r;
                           proposed_manifest := proposed_manifest r |}) p2 t)
  end.

(** A call on the database handle: the two queries by [full_name] and
    [db.Exec] of a statement. *)
Inductive Call :=
  | Select (full_name : string)
  | Count (full_name : string)
  | Exec (s : Stmt).

End Store.

(** ** Results, events and the outside services *)

(** A Go result [(value, error)] whose error the caller returns. *)
Inductive Result (A : Type) : Type :=
  | Ok (a : A)
  | Err (e : string).
Arguments Ok {A} a.
Arguments Err {A} e.

(** What a run of the pipeline does outside its own memory, in order. *)
Inductive Event :=
  | EvGithubGet (owner repo : string)
  | EvGithubGetContents (owner repo path : string)
  | EvOpenAI (repoName readmeContent : string)
  | EvScrape (fullName : string) (ok : bool)
  | EvDb (c : Store.Call).

Definition isDbEvent (e : Event) : bool :=
  match e with EvDb _ => true | _ => false end.

Definition isSaveEvent (e : Event) : bool :=
  match e with
  | EvDb (Store.Count _) | EvDb (Store.Exec _) => true
  | _ => false
  end.

(** The services the pipeline talks to.  Each field is the answer the
    service gives to a call:
    - [github_Get owner repo]: [githubClient.Repositories.Get];
    - [github_GetContents owner repo path]: [Repositories.GetContents]
      followed by [GetContent()], either of which can fail;
    - [openai_Chat repoName readme]: [CreateChatCompletion] on the prompt
      built from these two strings, answering the [Message.Content] of each
      choice;
    - [backfill repo]: how the searches, downloads and the completion of
      [scrapeToolDefinitions] on [repo] end, with the encoded tool list or
      with the error of the call that failed.  A backfill that does not
      return has no outcome here: the code indexes [Choices[0]] of the
      completion unchecked, which panics on an empty list, and retries a
      rate-limited search without bound.  The runs of the model are the
      runs in which every backfill returns;
    - [db_error c]: the error of the database call [c], [None] when the
      database accepts it. *)
Record Services := {
  github_Get : string → string → Result github.Repository;
  github_GetContents : string → string → string → Result string;
  openai_Chat : string → string → Result (list string);
  backfill : types.RepoInfo → Result string;
  db_error : Store.Call → option string
}.

(** [encoding/json] on the three shapes the pipeline encodes or decodes.
    [json.Marshal] cannot fail on a slice of configs or on a string map, so
    both are total and the branches [if err != nil] after them are left out.
    [json.Unmarshal] into a manifest returns the possibly partly filled
    struct together with its error.  [Unmarshal_metadata] answers a map or
    an error: the JSON text [null], which Go decodes without error into a
    nil map on which the assignment of [categories] panics, has no answer
    here, so metadata [null] lies outside the model. *)
Class JSON := {
  Marshal_configs : list types.MCPServerConfig → string;
  Marshal_metadata : gmap string string → string;
  Unmarshal_metadata : string → Result (gmap string string);
  Unmarshal_manifest : string → types.MCPServerManifest * option string
}.

(** The state a run threads: the table and the events so far. *)
Record World := {
  table : gmap string Store.Row;
  trace : list Event
}.

(** A computation that may return early with an error; what it did to the
    world before stays done. *)
Definition M (A : Type) : Type := World → Result A * World.

Definition ret {A} (a : A) : M A := λ w, (Ok a, w).
Definition fail {A} (e : string) : M A := λ w, (Err e, w).
Definition bind {A B} (m : M A) (k : A → M B) : M B :=
  λ w, match m w with
       | (Ok a, w') => k a w'
       | (Err e, w') => (Err e, w')
       end.

(** [err := f(); if err != nil { return wrap(err) }] around a call. *)
Definition bind_err {A} (m : M A) (wrap : string → string) : M A :=
  λ w, match m w with
       | (Ok a, w') => (Ok a, w')
       | (Err e, w') => (Err (wrap e), w')
       end.

Notation "'let!' x ':=' m 'in' k" := (bind m (λ x, k))
  (at level 10, x pattern, m at level 100, k at level 200).

Definition emit (e : Event) : M unit :=
  λ w, (Ok tt, {| table := table w; trace := trace w ++ [e] |}).

(** [x, err := f(); if err != nil { return wrap(err) }]. *)
Definition try {A} (r : Result A) (wrap : string → string) : M A :=
  match r with
  | Ok a => ret a
  | Err e => fail (wrap e)
  end.

(** Runs a computation on a table, with an empty trace. *)
Definition run {A} (m : M A) (t : gmap string Store.Row) : Result A * World :=
  m {| table := t; trace := [] |}.

(** ** The database handle *)

Section Database.
Context (env : Services).

(** [db.QueryRow("SELECT ... WHERE full_name = $1", fullName).Scan(...)]:
    the row when [err == nil], nothing when there is no such row or the
    query fails; [Scan] then assigns no destination.  The columns of a
    [Row] hold text, never [NULL], as in every row [SaveRepo] writes.  On
    a row with a [NULL] among the selected columns, such as one inserted
    under the older schema without [tool_definitions], [Scan] assigns the
    columns before the [NULL] and then returns an error; the model does not
    express that outcome. *)
Definition db_Select (fullName : string) : M (option Store.Row) :=
  let! _ := emit (EvDb (Store.Select fullName)) in
  λ w, match db_error env (Store.Select fullName) with
       | Some _ => (Ok None, w)
       | None => (Ok (table w !! fullName), w)
       end.

(** [db.QueryRow("SELECT COUNT( * ) ... WHERE full_name = $1", fullName)
    .Scan(&count)]. *)
Definition db_Count (fullName : string) : M (Result Z) :=
  let! _ := emit (EvDb (Store.Count fullName)) in
  λ w, match db_error env (Store.Count fullName) with
       | Some e => (Ok (Err e), w)
       | None =>
           (Ok (Ok match table w !! fullName with
                   | Some _ => 1%Z
                   | None => 0%Z
                   end), w)
       end.

(** [_, err = db.Exec(stmt, params...)]: the error, [None] for [nil].  A
    statement that the database rejects, or that violates the [UNIQUE]
    constraint, leaves the table as it was.  What the database rejects is
    the environment's to say: Postgres, for one, refuses the empty text in
    a [JSONB] column ([manifest], [proposed_manifest], [metadata],
    [tool_definitions]), and [db_error] gives that answer in
    [sample_faults]. *)
Definition db_Exec (s : Store.Stmt) : M (option string) :=
  let! _ := emit (EvDb (Store.Exec s)) in
  λ w, match db_error env (Store.Exec s) with
       | Some e => (Ok (Some e), w)
       | None =>
           match Store.apply s (table w) with
           | Some t' => (Ok None, {| table := t'; trace := trace w |})
           | None =>
               (Ok (Some "duplicate key value violates unique constraint"), w)
           end
       end.

End Database.

(** ** Package [utils] *)

Module utils.
Import types.

(** *** [MarkPreferred] *)

(** One [for i, cfg := range configs] loop of [MarkPreferred]: the index of
    the first config that satisfies [p], counted from [i], or [-1] (the
    initial value of [preferredIndex]) when the loop never breaks. *)
Fixpoint firstIndex (p : MCPServerConfig → bool) (i : Z)
    (configs : list MCPServerConfig) : Z :=
  match configs with
  | [] => (-1)%Z
  | cfg :: rest => if p cfg then i else firstIndex p (i + 1)%Z rest
  end.

Definition isNpx (cfg : MCPServerConfig) : bool := String.eqb (Command cfg) "npx".
Definition isUv (cfg : MCPServerConfig) : bool :=
  String.eqb (Command cfg) "uv" || String.eqb (Command cfg) "uvx".
Definition isDocker (cfg : MCPServerConfig) : bool :=
  String.eqb (Command cfg) "docker".

(** The value of [preferredIndex] after the three priority loops. *)
Definition preferredIndex (configs : list MCPServerConfig) : Z :=
  let idx := firstIndex isNpx 0%Z configs in
  let idx := if (idx =? -1)%Z then firstIndex isUv 0%Z configs else idx in
  let idx := if (idx =? -1)%Z then firstIndex isDocker 0%Z configs else idx in
  idx.

(** [MarkPreferred(configs)].  The Go function writes
    [configs[preferredIndex].Preferred = true] into the caller's slice; the
    model returns the slice after the call. *)
Definition MarkPreferred (configs : list MCPServerConfig) : list MCPServerConfig :=
  let idx := preferredIndex configs in
  if negb (idx =? -1)%Z then alter setPreferred (Z.to_nat idx) configs
  else configs.

(** *** Field assignments on a [RepoInfo] *)

Definition setManifest (v : string) (r : RepoInfo) : RepoInfo :=
  {| ID := ID r; Path := Path r; DisplayName := DisplayName r;
     FullName := FullName r; URL := URL r; Description := Description r;
     Stars := Stars r; ReadmeContent := ReadmeContent r;
     Language := Language r; Metadata := Metadata r; License := License r;
     Icon := Icon r; Manifest := v; ProposedManifest := ProposedManifest r;
     ToolDefinitions := ToolDefinitions r |}.

Definition setProposedManifest (v : string) (r : RepoInfo) : RepoInfo :=
  {| ID := ID r; Path := Path r; DisplayName := DisplayName r;
     FullName := FullName r; URL := URL r; Description := Description r;
     Stars := Stars r; ReadmeContent := ReadmeContent r;
     Language := Language r; Metadata := Metadata r; License := License r;
     Icon := Icon r; Manifest := Manifest r; ProposedManifest := v;
     ToolDefinitions := ToolDefinitions r |}.

Definition setMetadata (v : string) (r : RepoInfo) : RepoInfo :=
  {| ID := ID r; Path := Path r; DisplayName := DisplayName r;
     FullName := FullName r; URL := URL r; Description := Description r;
     Stars := Stars r; ReadmeContent := ReadmeContent r;
     Language := Language r; Metadata := v; License := License r;
     Icon := Icon r; Manifest := Manifest r;
     ProposedManifest := ProposedManifest r;
     ToolDefinitions := ToolDefinitions r |}.

Definition setDescription (v : string) (r : RepoInfo) : RepoInfo :=
  {| ID := ID r; Path := Path r; DisplayName := DisplayName r;
     FullName := FullName r; URL := URL r; Description := v;
     Stars := Stars r; ReadmeContent := ReadmeContent r;
     Language := Language r; Metadata := Metadata r; License := License r;
     Icon := Icon r; Manifest := Manifest r;
     ProposedManifest := ProposedManifest r;
     ToolDefinitions := ToolDefinitions r |}.

Definition setDisplayName (v : string) (r : RepoInfo) : RepoInfo :=
  {| ID := ID r; Path := Path r; DisplayName := v;
     FullName := FullName r; URL := URL r; Description := Description r;
     Stars := Stars r; ReadmeContent := ReadmeContent r;
     Language := Language r; Metadata := Metadata r; License := License r;
     Icon := Icon r; Manifest := Manifest r;
     ProposedManifest := ProposedManifest r;
     ToolDefinitions := ToolDefinitions r |}.

Definition setToolDefinitions (v : string) (r : RepoInfo) : RepoInfo :=
  {| ID := ID r; Path := Path r; DisplayName := DisplayName r;
     FullName := FullName r; URL := URL r; Description := Description r;
     Stars := Stars r; ReadmeContent := ReadmeContent r;
     Language := Language r; Metadata := Metadata r; License := License r;
     Icon := Icon r; Manifest := Manifest r;
     ProposedManifest := ProposedManifest r; ToolDefinitions := v |}.

Section WithEnv.
Context {codec : JSON} (env : Services).

(** *** [SaveRepo] *)

(** [SaveRepo(db, repo, proposed)]: update the row of [repo.FullName] when
    the count query finds one, insert it otherwise.  With [proposed] the
    update writes [proposed_manifest] and leaves [manifest] alone; without,
    it writes [manifest] and resets [proposed_manifest] to ["{}"]. *)
Definition SaveRepo (repo : RepoInfo) (proposed : bool) : M unit :=
  let! r := db_Count env (FullName repo) in
  let! count := try r (λ e, "error checking if repository exists: " ++ e) in
  if (count >? 0)%Z then
    let! err :=
      if negb proposed then
        db_Exec env (Store.UpdateAccepted (URL repo) (Description repo)
          (DisplayName repo) (Stars repo) (ReadmeContent repo)
          (Language repo) (Path repo) (Manifest repo) (Icon repo)
          (Metadata repo) (ToolDefinitions repo) "{}" (FullName repo))
      else
        db_Exec env (Store.UpdateProposed (URL repo) (Description repo)
          (DisplayName repo) (Stars repo) (ReadmeContent repo)
          (Language repo) (Path repo) (ProposedManifest repo) (Icon repo)
          (Metadata repo) (ToolDefinitions repo) (FullName repo)) in
    match err with
    | Some e => fail ("error updating repository " ++ FullName repo ++ ": " ++ e)
    | None => ret tt
    end
  else
    let repo := if String.eqb (Metadata repo) "" then setMetadata "{}" repo
                else repo in
    let! err :=
      db_Exec env (Store.Insert (FullName repo) (URL repo) (Description repo)
        (DisplayName repo) (Stars repo) (ReadmeContent repo) (Language repo)
        (Path repo) (Manifest repo) (Icon repo) (Metadata repo)
        (ToolDefinitions repo)) in
    match err with
    | Some e => fail ("error inserting repository " ++ FullName repo ++ ": " ++ e)
    | None => ret tt
    end.

(** *** [AnalyzeWithOpenAI] *)

(** [AnalyzeWithOpenAI(openaiClient, repoName, readmeContent,
    existingConfig)]: the manifest and the error, as Go returns both.  The
    prompt is built from [repoName] and [readmeContent] only. *)
Definition AnalyzeWithOpenAI (repoName readmeContent existingConfig : string)
    : M (MCPServerManifest * option string) :=
  let! _ := emit (EvOpenAI repoName readmeContent) in
  match openai_Chat env repoName readmeContent with
  | Err e => ret (zeroManifest, Some ("OpenAI API error: " ++ e))
  | Ok [] => ret (zeroManifest, Some "no response from OpenAI")
  | Ok (content :: _) =>
      match Unmarshal_manifest content with
      | (result, Some e) =>
          ret (result, Some ("error parsing OpenAI response: " ++ e))
      | (result, None) => ret (result, None)
      end
  end.

(** *** [ScrapeToolDefinitions] *)

(** [ScrapeToolDefinitions(ctx, &repo, ...)]: a full name without ["/"] is
    refused at once.  The searches, the downloads and the completion that
    follow happen at GitHub and OpenAI, and [backfill] gives their outcome
    when they return (see [Services] for the panic and the retries that do
    not); the function itself writes [repo.ToolDefinitions] on success and
    nothing on failure. *)
Definition ScrapeToolDefinitions (repo : RepoInfo) : M RepoInfo :=
  let parts := Strings.Split (FullName repo) "/" in
  if (length parts <? 2)%nat then
    let! _ := emit (EvScrape (FullName repo) false) in
    fail ("invalid repo name: " ++ FullName repo)
  else
    match backfill env repo with
    | Ok toolRaw =>
        let! _ := emit (EvScrape (FullName repo) true) in
        ret (setToolDefinitions toolRaw repo)
    | Err e =>
        let! _ := emit (EvScrape (FullName repo) false) in
        fail e
    end.

(** *** [UpdateRepo] *)

Definition setConfigs (v : list MCPServerConfig) (m : MCPServerManifest)
    : MCPServerManifest :=
  {| Name := Name m; mf_Description := mf_Description m;
     Category := Category m; Configs := v |}.

(** The [categories] entry [UpdateRepo] writes, from [verified := false] to
    [metadata["categories"] = categories]. *)
Definition mergeCategories (metadata : gmap string string) (category : string)
    : gmap string string :=
  let existingCategories :=
    Strings.Split (default "" (metadata !! "categories")) "," in
  let verified :=
    if negb (Strings.slices_Contains existingCategories "Verified")
    then true else false in
  let categories := category in
  let categories := if verified then categories ++ ",Verified"
                    else categories in
  <["categories" := categories]> metadata.

(** The loop [for _, config := range analysis.Configs] that sets
    [foundPreferred]. *)
Definition foundPreferred (configs : list MCPServerConfig) : bool :=
  existsb Preferred configs.

(** [proposed := true; if (manifest == "" || manifest == "{}") || force
    { proposed = false }]. *)
Definition decideProposed (manifest : string) (force : bool) : bool :=
  if (String.eqb manifest "" || String.eqb manifest "{}") || force
  then false else true.

(** [UpdateRepo(ctx, repo, force, openaiClient, fullName, readmeContent, db,
    githubClient)]. *)
Definition UpdateRepo (repo : RepoInfo) (force : bool)
    (fullName readmeContent : string) : M unit :=
  let proposed := decideProposed (Manifest repo) force in
  let! (analysis, err) :=
    AnalyzeWithOpenAI fullName readmeContent (Manifest repo) in
  let! (analysis, repo) :=
    match err with
    | Some _ => ret (analysis, repo)
    | None =>
        if (length (Configs analysis) =? 0)%nat then
          fail ("no MCP server found in repository " ++ fullName)
        else
          let analysis := setConfigs (MarkPreferred (Configs analysis)) analysis in
          let manifestBytes := Marshal_configs (Configs analysis) in
          let repo := if proposed then setProposedManifest manifestBytes repo
                      else setManifest manifestBytes repo in
          let! metadata :=
            if negb (String.eqb (Metadata repo) "") then
              try (Unmarshal_metadata (Metadata repo))
                  (λ e, "error unmarshalling metadata for repository "
                        ++ fullName ++ ": " ++ e)
            else ret ∅ in
          let metadata := mergeCategories metadata (Category analysis) in
          let repo := setMetadata (Marshal_metadata metadata) repo in
          let repo := setDescription (mf_Description analysis) repo in
          let repo := setDisplayName (Name analysis) repo in
          ret (analysis, repo)
    end in
  let! repo :=
    if foundPreferred (Configs analysis) then
      if String.eqb (ToolDefinitions repo) ""
         || String.eqb (ToolDefinitions repo) "{}" || force
      then
        bind_err (ScrapeToolDefinitions repo)
          (λ e, "error scraping tool definitions for repository "
                ++ fullName ++ ": " ++ e)
      else ret repo
    else ret repo in
  let repo := if String.eqb (ToolDefinitions repo) ""
              then setToolDefinitions "{}" repo else repo in
  SaveRepo repo proposed.

End WithEnv.
End utils.

(** ** Package [server]: [pkg/server/collect.go] *)

Section GithubClient.
Context (env : Services).

(** [githubClient.Repositories.Get(ctx, owner, repo)], the error returned
    as it is. *)
Definition Repositories_Get (owner repo : string) : M github.Repository :=
  let! _ := emit (EvGithubGet owner repo) in
  try (github_Get env owner repo) (λ e, e).

(** [githubClient.Repositories.GetContents(ctx, owner, repo, path, nil)]
    and [fileContent.GetContent()], either error returned as it is. *)
Definition Repositories_GetContents (owner repo path : string) : M string :=
  let! _ := emit (EvGithubGetContents owner repo path) in
  try (github_GetContents env owner repo path) (λ e, e).

End GithubClient.

(** What [AddRepo] derives from the repository and the path of the README
    before it looks at the database. *)
Module derive.
Import types.

(** [strings.Join(parts[:len(parts)-1], "/")]. *)
Definition dirOf (parts : list string) : string :=
  Strings.Join (take (length parts - 1) parts) "/".

(** [fullName]: the repository's full name, followed by the directory of
    the README when it is not at the top. *)
Definition fullName (githubRepo : github.Repository) (path : string) : string :=
  let parts := Strings.Split path "/" in
  if (1 <? length parts)%nat
  then github.FullName githubRepo ++ "/" ++ dirOf parts
  else github.FullName githubRepo.

(** [repoURL]: the HTML URL, followed by the tree link of that directory. *)
Definition repoURL (githubRepo : github.Repository) (path : string) : string :=
  let parts := Strings.Split path "/" in
  if (1 <? length parts)%nat
  then github.HTMLURL githubRepo ++ "/tree/"
       ++ github.DefaultBranch githubRepo ++ "/" ++ dirOf parts
  else github.HTMLURL githubRepo.

(** The guard [!strings.Contains(readmeContent, "mcpServers") && ... ]. *)
Definition noLaunchKeyword (readmeContent : string) : bool :=
  negb (Strings.Contains readmeContent "mcpServers")
  && negb (Strings.Contains readmeContent "npx")
  && negb (Strings.Contains readmeContent "docker")
  && negb (Strings.Contains readmeContent "uv").

(** [repoInfo := types.RepoInfo{FullName: ..., Icon: ...}]. *)
Definition repoInfo (githubRepo : github.Repository)
    (path readmeContent : string) : RepoInfo :=
  {| ID := 0%Z; Path := path; DisplayName := "";
     FullName := fullName githubRepo path;
     URL := repoURL githubRepo path;
     Description := github.Description githubRepo;
     Stars := github.StargazersCount githubRepo;
     ReadmeContent := readmeContent;
     Language := github.Language githubRepo;
     Metadata := ""; License := "";
     Icon := github.OwnerAvatarURL githubRepo;
     Manifest := ""; ProposedManifest := ""; ToolDefinitions := "" |}.

End derive.

Module server.
Import types.

(** The loop of [searchReposByReadme] under the comment "Deduplicate
    repositories based on fullname and path": [seen] is the map of keys
    met so far, [uniqueRepos] the slice built so far. *)
Fixpoint dedupLoop (seen : gmap string bool)
    (uniqueRepos allRepos : list github.CodeResult) : list github.CodeResult :=
  match allRepos with
  | [] => uniqueRepos
  | repo :: rest =>
      let key := github.FullName (github.Repo repo) ++ ":" ++ github.Path repo in
      if negb (default false (seen !! key))
      then dedupLoop (<[key := true]> seen) (uniqueRepos ++ [repo]) rest
      else dedupLoop seen uniqueRepos rest
  end.

(** [uniqueRepos] after the loop, from an empty map and an empty slice. *)
Definition uniqueRepos (allRepos : list github.CodeResult)
    : list github.CodeResult :=
  dedupLoop ∅ [] allRepos.

Section WithEnv.
Context {codec : JSON} (env : Services).

(** [repoFromDB] after [Scan(&repoFromDB.ReadmeContent, &repoFromDB.Manifest,
    &repoFromDB.Metadata, &repoFromDB.ToolDefinitions)]; the zero value
    when the query gave an error or found no row (a [Scan] that stops
    part-way at a [NULL] is outside the model, see [db_Select]). *)
Definition scanRepoFromDB (found : option Store.Row) : RepoInfo :=
  match found with
  | Some row =>
      {| ID := 0%Z; Path := ""; DisplayName := ""; FullName := ""; URL := "";
         Description := ""; Stars := 0%Z;
         ReadmeContent := Store.readme_content row; Language := "";
         Metadata := Store.metadata row; License := ""; Icon := "";
         Manifest := Store.manifest row; ProposedManifest := "";
         ToolDefinitions := Store.tool_definitions row |}
  | None => zeroRepoInfo
  end.

(** [AddRepo(ctx, owner, repo, path, force)] of [collect.go]. *)
Definition AddRepo (owner repo path : string) (force : bool) : M unit :=
  let! githubRepo := Repositories_Get env owner repo in
  let! readmeContent :=
    Repositories_GetContents env (github.OwnerLogin githubRepo)
      (github.Name githubRepo) path in
  let fullName := derive.fullName githubRepo path in
  if derive.noLaunchKeyword readmeContent then
    fail ("no MCP server found in repository " ++ fullName)
  else
  let repoInfo := derive.repoInfo githubRepo path readmeContent in
  let! found := db_Select env fullName in
  let repoFromDB := scanRepoFromDB found in
  if (if found is Some _ then true else false)
     && String.eqb (ReadmeContent repoFromDB) readmeContent && negb force
  then ret tt
  else
  let proposed := utils.decideProposed (Manifest repoFromDB) force in
  let! (analysis, err) :=
    utils.AnalyzeWithOpenAI env fullName readmeContent (Manifest repoFromDB) in
  let! (analysis, repoInfo) :=
    match err with
    | Some _ => ret (analysis, repoInfo)
    | None =>
        if (length (Configs analysis) =? 0)%nat then
          fail ("no MCP server found in repository " ++ fullName)
        else
          let analysis :=
            utils.setConfigs (utils.MarkPreferred (Configs analysis)) analysis in
          let manifestBytes := Marshal_configs (Configs analysis) in
          let repoInfo :=
            if proposed then utils.setProposedManifest manifestBytes repoInfo
            else utils.setManifest manifestBytes repoInfo in
          let! metadata :=
            if negb (String.eqb (Metadata repoInfo) "") then
              try (Unmarshal_metadata (Metadata repoInfo))
                  (λ e, "error unmarshalling metadata for repository "
                        ++ fullName ++ ": " ++ e)
            else ret ∅ in
          let metadata := <["categories" := Category analysis]> metadata in
          let repoInfo := utils.setMetadata (Marshal_metadata metadata) repoInfo in
          let repoInfo := utils.setDescription (mf_Description analysis) repoInfo in
          let repoInfo := utils.setDisplayName (Name analysis) repoInfo in
          ret (analysis, repoInfo)
    end in
  let! repoInfo :=
    if utils.foundPreferred (Configs analysis) then
      if String.eqb (ToolDefinitions repoFromDB) ""
         || String.eqb (ToolDefinitions repoFromDB) "{}" || force
      then
        bind_err (utils.ScrapeToolDefinitions env repoInfo)
          (λ e, "error scraping tool definitions for repository "
                ++ fullName ++ ": " ++ e)
      else ret repoInfo
    else ret repoInfo in
  let repoInfo := if String.eqb (ToolDefinitions repoInfo) ""
                  then utils.setToolDefinitions "{}" repoInfo else repoInfo in
  utils.SaveRepo env repoInfo proposed.

End WithEnv.
End server.

(** ** Package [server], the later [collect.go] *)

Module server_refactored.
Import types.

Section WithEnv.
Context {codec : JSON} (env : Services).

(** [repoFromDB] after the [Scan] of [readme_content, manifest, metadata,
    tool_definitions, icon]. *)
Definition scanRepoFromDB (found : option Store.Row) : RepoInfo :=
  match found with
  | Some row =>
      {| ID := 0%Z; Path := ""; DisplayName := ""; FullName := ""; URL := "";
         Description := ""; Stars := 0%Z;
         ReadmeContent := Store.readme_content row; Language := "";
         Metadata := Store.metadata row; License := "";
         Icon := Store.icon row;
         Manifest := Store.manifest row; ProposedManifest := "";
         ToolDefinitions := Store.tool_definitions row |}
  | None => zeroRepoInfo
  end.

(** [AddRepo(ctx, owner, repo, path, force)] of the later [collect.go].  An
    unchanged README ends the call, after filling an empty [icon]; the
    error of that [db.Exec] is dropped, as in the source.  Otherwise the
    stored metadata is copied into [repoInfo] and [utils.UpdateRepo] does
    the rest.  This [AddRepo] returns a name next to the error and expects
    the same of [UpdateRepo]; the model keeps the error alone, as
    [UpdateRepo] above returns it.  The [UpdateRepo] that returns a name is
    not among the sources: the part of this function that is from the
    source is the part before that call. *)
Definition AddRepo (owner repo path : string) (force : bool) : M unit :=
  let! githubRepo := Repositories_Get env owner repo in
  let! readmeContent :=
    Repositories_GetContents env (github.OwnerLogin githubRepo)
      (github.Name githubRepo) path in
  let fullName := derive.fullName githubRepo path in
  if derive.noLaunchKeyword readmeContent then
    fail ("no MCP server found in repository " ++ fullName)
  else
  let repoInfo := derive.repoInfo githubRepo path readmeContent in
  let! found := db_Select env fullName in
  let repoFromDB := scanRepoFromDB found in
  if (if found is Some _ then true else false)
     && String.eqb (ReadmeContent repoFromDB) readmeContent && negb force
  then
    if String.eqb (Icon repoFromDB) "" then
      let! _ := db_Exec env
        (Store.UpdateIcon (github.OwnerAvatarURL githubRepo) fullName) in
      ret tt
    else ret tt
  else
  let repoInfo := utils.setMetadata (Metadata repoFromDB) repoInfo in
  utils.UpdateRepo env repoInfo force fullName readmeContent.

End WithEnv.
End server_refactored.

(** ** Vocabulary of the statements *)

(** How many configs of a list carry [preferred = true]. *)
Definition preferredCount (configs : list types.MCPServerConfig) : nat :=
  length (List.filter types.Preferred configs).

(** [i] is the position of the first config of the list that satisfies
    [p]. *)
Definition firstWith (p : types.MCPServerConfig → bool) (i : nat)
    (configs : list types.MCPServerConfig) : Prop :=
  (∃ c, configs !! i = Some c ∧ p c = true) ∧
  ∀ j c, (j < i)%nat → configs !! j = Some c → p c = false.

(** The config at position [i], and no other, is preferred. *)
Definition onlyMarked (i : nat) (configs : list types.MCPServerConfig) : Prop :=
  ∀ j c, configs !! j = Some c → (types.Preferred c = true ↔ j = i).

(** The pair a search result is identified by, and the key the loop builds
    from it. *)
Definition pairOf (r : github.CodeResult) : string * string :=
  (github.FullName (github.Repo r), github.Path r).

Definition keyOf (r : github.CodeResult) : string :=
  github.FullName (github.Repo r) ++ ":" ++ github.Path r.

(** The database accepts every call. *)
Definition dbAccepts (env : Services) : Prop := ∀ c, db_error env c = None.

(** [row] with its [icon] replaced. *)
Definition withIcon (v : string) (row : Store.Row) : Store.Row :=
  {| Store.url := Store.url row; Store.description := Store.description row;
     Store.display_name := Store.display_name row;
     Store.stars := Store.stars row;
     Store.readme_content := Store.readme_content row;
     Store.language := Store.language row; Store.path := Store.path row;
     Store.manifest := Store.manifest row; Store.icon := v;
     Store.metadata := Store.metadata row;
     Store.tool_definitions := Store.tool_definitions row;
     Store.proposed_manifest := Store.proposed_manifest row |}.

(** The categories string carries the tag [tag] between its commas. *)
Definition hasTag (tag categories : string) : bool :=
  Strings.slices_Contains (Strings.Split categories ",") tag.

(** The error [AddRepo] and [UpdateRepo] return when the analysis finds no
    config. *)
Definition noManifestFound (fullName : string) : string :=
  "no MCP server found in repository " ++ fullName.

(** A call to the language model or a backfill. *)
Definition isOracleEvent (e : Event) : bool :=
  match e with
  | EvOpenAI _ _ | EvScrape _ _ => true
  | _ => false
  end.

(** The three ways [AnalyzeWithOpenAI] fails on [fullName] and [readme]:
    the API call errs, it returns no choice, or the first choice does not
    decode; [partial] is the manifest returned next to the error. *)
Inductive OracleFailure {codec : JSON} (env : Services) (fullName readme : string)
    : types.MCPServerManifest → Prop :=
  | ApiError e :
      openai_Chat env fullName readme = Err e →
      OracleFailure env fullName readme types.zeroManifest
  | NoChoice :
      openai_Chat env fullName readme = Ok [] →
      OracleFailure env fullName readme types.zeroManifest
  | Unparseable content rest partial e :
      openai_Chat env fullName readme = Ok (content :: rest) →
      Unmarshal_manifest content = (partial, Some e) →
      OracleFailure env fullName readme partial.

(** ** Proof steps for runs *)

(** Unfolds the monad, the database handle and the GitHub client. *)
Ltac unfold_monad :=
  cbv beta iota zeta delta
    [run bind bind_err try ret fail emit db_Select db_Count db_Exec
     Repositories_Get Repositories_GetContents table trace].

(** Unfolds [AddRepo], [UpdateRepo] and what they call. *)
Ltac unfold_flow :=
  unfold server.AddRepo, utils.UpdateRepo, utils.AnalyzeWithOpenAI,
    utils.ScrapeToolDefinitions, utils.SaveRepo;
  unfold_monad.

(** Finds an event in a trace that is written out. *)
Ltac event_here :=
  repeat first [apply list_elem_of_here | apply list_elem_of_further].

(** Refutes [H : e ∈ trace] when no event of the trace has the shape of
    [e]. *)
Ltac no_such_event H :=
  exfalso;
  repeat (apply elem_of_cons in H as [H|H]; [discriminate H|]);
  by apply elem_of_nil in H.

(** ** A repository to run the model on *)

Module sample.
Import types.

Definition cfg (command : string) (preferred : bool) : MCPServerConfig :=
  {| Env := []; Command := command; Args := []; HTTPHeaders := [];
     cfg_URL := ""; URLDescription := ""; Preferred := preferred |}.

Definition repository : github.Repository :=
  {| github.FullName := "acme/server-a"; github.Name := "server-a";
     github.OwnerLogin := "acme";
     github.OwnerAvatarURL := "https://avatars.example/acme.png";
     github.HTMLURL := "https://github.com/acme/server-a";
     github.DefaultBranch := "main"; github.Description := "Server A";
     github.StargazersCount := 12%Z; github.Language := "TypeScript" |}.

Definition hit (fullName path : string) : github.CodeResult :=
  {| github.Repo :=
       {| github.FullName := fullName; github.Name := ""; github.OwnerLogin := "";
          github.OwnerAvatarURL := ""; github.HTMLURL := "";
          github.DefaultBranch := ""; github.Description := "";
          github.StargazersCount := 0%Z; github.Language := "" |};
     github.Path := path |}.

(** Four search results, one of them met twice. *)
Definition hits : list github.CodeResult :=
  [hit "acme/server-a" "README.md"; hit "acme/server-b" "README.md";
   hit "acme/server-a" "README.md"; hit "acme/server-a" "docs/README.md"].

Definition readme_old : string := "Start it with npx -y server-a".
Definition readme_new : string := "Start it with npx -y server-a or docker".
Definition readme_plain : string := "A collection of helpers".

(** What the language model answers, and the manifest it stands for. *)
Definition completion : string := "completion: docker and npx, Productivity".

Definition analysis : MCPServerManifest :=
  {| Name := "Server A"; mf_Description := "Does A";
     Category := "Productivity";
     Configs := [cfg "docker" false; cfg "npx" false] |}.

Definition quoted (s : string) : string :=
  String "034" EmptyString ++ s ++ String "034" EmptyString.

Definition renderConfig (c : MCPServerConfig) : string :=
  "{" ++ quoted "command" ++ ":" ++ quoted (Command c)
  ++ (if Preferred c then "," ++ quoted "preferred" ++ ":true" else "") ++ "}".

Definition renderEntry (kv : string * string) : string :=
  quoted kv.1 ++ ":" ++ quoted kv.2.

Definition renderMetadata (m : gmap string string) : string :=
  "{" ++ Strings.Join (renderEntry <$> map_to_list m) "," ++ "}".

(** The metadata maps of the examples; the decoder below inverts the
    encoder on them. *)
Definition knownMetadata : list (gmap string string) :=
  [∅; {["categories" := "Productivity,Verified"]};
   {["categories" := "Productivity"]}].

(** A codec for the examples: it writes the command and the preferred flag
    of each config and the entries of a metadata map, reads back the
    metadata texts it wrote for [knownMetadata], and reads [completion] as
    [analysis]. *)
Definition json : JSON :=
  {| Marshal_configs := λ configs,
       "[" ++ Strings.Join (renderConfig <$> configs) "," ++ "]";
     Marshal_metadata := renderMetadata;
     Unmarshal_metadata := λ text,
       match List.find (λ m, String.eqb (renderMetadata m) text) knownMetadata with
       | Some m => Ok m
       | None => Err "invalid character"
       end;
     Unmarshal_manifest := λ text,
       if String.eqb text completion then (analysis, None)
       else (zeroManifest, Some "invalid character") |}.

(** The services: GitHub knows [acme/server-a] and serves [readme] for its
    [README.md]; the language model answers [chat]; the backfill ends with
    [tools]; the database accepts every call. *)
Definition services (readme : string) (chat : Result (list string))
    (tools : Result string) : Services :=
  {| github_Get := λ owner repo,
       if String.eqb owner "acme" && String.eqb repo "server-a"
       then Ok repository else Err "404 Not Found";
     github_GetContents := λ _ _ path,
       if String.eqb path "README.md" then Ok readme else Err "404 Not Found";
     openai_Chat := λ _ _, chat;
     backfill := λ _, tools;
     db_error := λ _, None |}.

(** The row of [acme/server-a] after an earlier ingestion of [readme_old],
    with an accepted manifest. *)
Definition storedRow : Store.Row :=
  {| Store.url := "https://github.com/acme/server-a";
     Store.description := "Does A"; Store.display_name := "Server A";
     Store.stars := 10%Z; Store.readme_content := readme_old;
     Store.language := "TypeScript"; Store.path := "README.md";
     Store.manifest := "[" ++ renderConfig (cfg "npx" true) ++ "]";
     Store.icon := "";
     Store.metadata := renderMetadata {["categories" := "Productivity,Verified"]};
     Store.tool_definitions := "[]";
     Store.proposed_manifest := None |}.

Definition storedTable : gmap string Store.Row :=
  {["acme/server-a" := storedRow]}.

(** The services in the situations of the examples. *)
Definition envChanged : Services :=
  services readme_new (Ok [completion]) (Ok "[]").
Definition envUnchanged : Services :=
  services readme_old (Ok [completion]) (Ok "[]").
Definition envPlain : Services :=
  services readme_plain (Ok [completion]) (Ok "[]").
Definition envOracleDown : Services :=
  services readme_new (Err "status 500") (Ok "[]").
Definition envBackfillDown : Services :=
  services readme_new (Ok [completion]) (Err "rate limit exceeded").

(** The record [generateConfigForSpecificRepoHandler] hands to
    [UpdateRepo]: the stored row of [acme/server-a]. *)
Definition storedRepo : RepoInfo :=
  {| ID := 1%Z; Path := "README.md"; DisplayName := "Server A";
     FullName := "acme/server-a"; URL := "https://github.com/acme/server-a";
     Description := "Does A"; Stars := 10%Z;
     ReadmeContent := readme_old; Language := "TypeScript";
     Metadata := Store.metadata storedRow; License := ""; Icon := "";
     Manifest := Store.manifest storedRow; ProposedManifest := "{}";
     ToolDefinitions := "[]" |}.

End sample.

(** ** The loops of [searchReposByReadme] around the deduplication *)

Module server_crawl.

(** How [githubClient.Search.Code] ends: with the code results of the
    response, with a [*github.RateLimitError], or with another error. *)
Inductive SearchOutcome :=
  | Found (results : list github.CodeResult)
  | RateLimited
  | Failed (e : string).

(** [batchSize := 15]. *)
Definition batchSize : nat := 15.

(** [repoLinks[i:end]]. *)
Definition slice (i end_ : nat) (repoLinks : list string) : list string :=
  take (end_ - i) (drop i repoLinks).

(** The query of one batch: [repo:<name>] for each link of the batch, then
    the keyword and the file name. *)
Definition batchQuery (batch : list string) : string :=
  Strings.Join ((λ repoFullName, "repo:" ++ repoFullName) <$> batch) " "
  ++ " mcpServers filename:README.md".

(** The loop [for i := 0; i < len(repoLinks); i += batchSize] of
    [searchReposByReadme], from the index [i] on, with [allRepos] collected
    so far; [batches] records the slices queried so far.  [search k query]
    is the outcome of the search when it is the [k]-th of the loop, so that
    the same query may be answered differently later.  A failed search,
    rate limited or not, ends in [continue], which moves on to the next
    batch.  [fuel] bounds the number of iterations. *)
Fixpoint batchLoop (search : nat → string → SearchOutcome) (limit : Z)
    (repoLinks : list string) (fuel i : nat)
    (allRepos : list github.CodeResult) (batches : list (list string))
    : list github.CodeResult * list (list string) :=
  match fuel with
  | O => (allRepos, batches)
  | S fuel =>
      if (i <? length repoLinks)%nat then
        let end_ := (i + batchSize)%nat in
        let end_ := if (length repoLinks <? end_)%nat then length repoLinks
                    else end_ in
        let batch := slice i end_ repoLinks in
        match search (length batches) (batchQuery batch) with
        | Found results =>
            let allRepos := (allRepos ++ results)%list in
            if (limit <=? Z.of_nat (length allRepos))%Z
            then (allRepos, (batches ++ [batch])%list)
            else batchLoop search limit repoLinks fuel (i + batchSize)%nat
                   allRepos (batches ++ [batch])%list
        | RateLimited | Failed _ =>
            batchLoop search limit repoLinks fuel (i + batchSize)%nat
              allRepos (batches ++ [batch])%list
        end
      else (allRepos, batches)
  end.

(** The batch phase from [i = 0] and an empty [allRepos]; the loop makes at
    most one iteration per link. *)
Definition searchBatches (search : nat → string → SearchOutcome) (limit : Z)
    (repoLinks : list string) : list github.CodeResult * list (list string) :=
  batchLoop search limit repoLinks (length repoLinks) 0 [] [].

Section WithEnv.
Context {codec : JSON} (env : Services).

(** The loop "Process and store the repositories": [AddRepo] on each
    candidate in order; an error is logged and the loop goes on. *)
Fixpoint processRepos (allRepos : list github.CodeResult) (force : bool)
    : M unit :=
  match allRepos with
  | [] => ret tt
  | repo :: rest =>
      λ w, let (_, w') :=
             server.AddRepo env (github.OwnerLogin (github.Repo repo))
               (github.Name (github.Repo repo)) (github.Path repo) force w in
           processRepos rest force w'
  end.

End WithEnv.
End server_crawl.

(** ** [addRepoHandler] of [pkg/server/routes.go] *)

Module routes.

(** [utils.IsAuthorized(r)]: the cookie [obot-catalog-server-token], when
    the request carries one, equals the access token of the environment. *)
Definition IsAuthorized (cookie : option string) (expected : string) : bool :=
  match cookie with
  | None => false
  | Some value => String.eqb value expected
  end.

Section WithEnv.
Context {codec : JSON} (env : Services)
  (search : string → server_crawl.SearchOutcome).

(** The loop of [addRepoHandler] over the code results: [AddRepo] without
    [force] on each, the errors appended to [errs]. *)
Fixpoint addEach (results : list github.CodeResult) (errs : list string)
    : M (list string) :=
  match results with
  | [] => ret errs
  | codeResult :: rest =>
      λ w, match server.AddRepo env
                   (github.OwnerLogin (github.Repo codeResult))
                   (github.Name (github.Repo codeResult))
                   (github.Path codeResult) false w with
           | (Ok _, w') => addEach rest errs w'
           | (Err e, w') => addEach rest (errs ++ [e])%list w'
           end
  end.

(** [addRepoHandler(w, r)]: the status code of the response.  [body] is the
    [fullName] decoded from the request, or the error of the decoder. *)
Definition addRepoHandler (cookie : option string) (expected : string)
    (body : Result string) : M Z :=
  if negb (IsAuthorized cookie expected) then ret 401%Z
  else
    match body with
    | Err _ => ret 400%Z
    | Ok fullName =>
        let parts := Strings.Split fullName "/" in
        if (length parts <? 3)%nat then ret 400%Z
        else
          let owner := nth 1 parts "" in
          let repo := nth 2 parts "" in
          let query := "mcpServers filename:README.md repo:" ++ owner
                       ++ "/" ++ repo in
          match search query with
          | server_crawl.Found results =>
              let! errs := addEach results [] in
              if (0 <? length errs)%nat then ret 500%Z else ret 200%Z
          | server_crawl.RateLimited | server_crawl.Failed _ => ret 500%Z
          end
    end.

End WithEnv.
End routes.

(** ** Vocabulary of the further statements *)

(** What the [SELECT] of [AddRepo] finds for a name. *)
Definition selected (env : Services) (t : gmap string Store.Row)
    (fullName : string) : option Store.Row :=
  match db_error env (Store.Select fullName) with
  | Some _ => None
  | None => t !! fullName
  end.

(** The database answers every [SELECT] by name. *)
Definition selectWorks (env : Services) : Prop :=
  ∀ fullName, db_error env (Store.Select fullName) = None.

(** Every row of [t] whose accepted manifest is neither empty nor the
    placeholder ["{}"] is in [t'] with the same manifest. *)
Definition keepsAccepted (t t' : gmap string Store.Row) : Prop :=
  ∀ k row, t !! k = Some row →
    Store.manifest row ≠ "" → Store.manifest row ≠ "{}" →
    ∃ row', t' !! k = Some row' ∧ Store.manifest row' = Store.manifest row.

(** The results the [k]-th batch contributes: those of its search when it
    succeeds, none when it is rate limited or fails. *)
Definition resultsOf (search : nat → string → server_crawl.SearchOutcome)
    (k : nat) (batch : list string) : list github.CodeResult :=
  match search k (server_crawl.batchQuery batch) with
  | server_crawl.Found results => results
  | server_crawl.RateLimited | server_crawl.Failed _ => []
  end.

(** The calls of [Repositories.Get] in a trace, in order. *)
Definition githubGets (events : list Event) : list (string * string) :=
  omap (λ e, match e with
             | EvGithubGet owner repo => Some (owner, repo)
             | _ => None
             end) events.

(** ** More of the sample repository *)

Module sample_more.
Import types sample.

(** The code result of a search that found the README of
    [acme/server-a]. *)
Definition codeResult : github.CodeResult :=
  {| github.Repo := repository; github.Path := "README.md" |}.

(** A search that finds that README for every query. *)
Definition search (query : string) : server_crawl.SearchOutcome :=
  server_crawl.Found [codeResult].

(** A code result for a repository that is gone by the time [AddRepo]
    asks GitHub for it. *)
Definition goneResult : github.CodeResult :=
  {| github.Repo :=
       {| github.FullName := "acme/server-z"; github.Name := "server-z";
          github.OwnerLogin := "acme"; github.OwnerAvatarURL := "";
          github.HTMLURL := "https://github.com/acme/server-z";
          github.DefaultBranch := "main"; github.Description := "";
          github.StargazersCount := 0%Z; github.Language := "" |};
     github.Path := "README.md" |}.

(** A search that finds the repository that is gone, then the README. *)
Definition searchTwo (query : string) : server_crawl.SearchOutcome :=
  server_crawl.Found [goneResult; codeResult].

(** A codec that reads every completion as the empty object: a manifest
    without configs. *)
Definition jsonEmpty : JSON :=
  {| Marshal_configs := Marshal_configs (JSON := json);
     Marshal_metadata := Marshal_metadata (JSON := json);
     Unmarshal_metadata := Unmarshal_metadata (JSON := json);
     Unmarshal_manifest := λ _, (zeroManifest, None) |}.

(** The sample services with a database that rejects the update of the
    icon. *)
Definition envIconDown : Services :=
  {| github_Get := github_Get envUnchanged;
     github_GetContents := github_GetContents envUnchanged;
     openai_Chat := openai_Chat envUnchanged;
     backfill := backfill envUnchanged;
     db_error := λ c, match c with
                      | Store.Exec (Store.UpdateIcon _ _) =>
                          Some "connection refused"
                      | _ => None
                      end |}.

(** The stored table with a second repository next to [acme/server-a]. *)
Definition twoRows : gmap string Store.Row :=
  <["acme/server-b" := storedRow]> storedTable.

(** Seventeen links: two batches. *)
Definition links : list string :=
  (λ n : nat, "acme/server-a") <$> seq 0 17.

(** A search that is rate limited on its first call and finds the README
    on the later ones. *)
Definition searchLimited (k : nat) (query : string)
    : server_crawl.SearchOutcome :=
  if (k =? 0)%nat then server_crawl.RateLimited
  else server_crawl.Found [codeResult].

(** The stored record with metadata that is no JSON. *)
Definition brokenRepo : RepoInfo :=
  utils.setMetadata "categories=Productivity" storedRepo.

End sample_more.

(** ** The sample with a failing database *)

Module sample_faults.
Import types sample.

(** The sample services with a database whose [SELECT] by name fails and
    which accepts every other call. *)
Definition selectDown (readme : string) : Services :=
  {| github_Get := github_Get (services readme (Ok [completion]) (Ok "[]"));
     github_GetContents :=
       github_GetContents (services readme (Ok [completion]) (Ok "[]"));
     openai_Chat := λ _ _, Ok [completion];
     backfill := λ _, Ok "[]";
     db_error := λ c, match c with
                      | Store.Select _ => Some "driver: bad connection"
                      | _ => None
                      end |}.

(** Whether a statement passes the empty text for a [JSONB] column, which
    Postgres refuses as invalid JSON. *)
Definition passesEmptyJSON (s : Store.Stmt) : bool :=
  match s with
  | Store.UpdateAccepted _ _ _ _ _ _ _ manifest _ metadata tools proposed _ =>
      String.eqb manifest "" || String.eqb metadata ""
      || String.eqb tools "" || String.eqb proposed ""
  | Store.UpdateProposed _ _ _ _ _ _ _ proposed _ metadata tools _ =>
      String.eqb proposed "" || String.eqb metadata "" || String.eqb tools ""
  | Store.Insert _ _ _ _ _ _ _ _ manifest _ metadata tools =>
      String.eqb manifest "" || String.eqb metadata "" || String.eqb tools ""
  | Store.UpdateIcon _ _ => false
  end.

(** The sample services while the API of the language model errs, with a
    database that refuses the empty text in a [JSONB] column, as Postgres
    does, and accepts every other call. *)
Definition oracleDownStrict : Services :=
  {| github_Get := github_Get envOracleDown;
     github_GetContents := github_GetContents envOracleDown;
     openai_Chat := openai_Chat envOracleDown;
     backfill := backfill envOracleDown;
     db_error := λ c, match c with
                      | Store.Exec s =>
                          if passesEmptyJSON s
                          then Some "pq: invalid input syntax for type json"
                          else None
                      | _ => None
                      end |}.

End sample_faults.

(** ** [MarkPreferred] *)

Section MarkPreferredFacts.
Import types utils.
Implicit Types (p : MCPServerConfig → bool) (configs : list MCPServerConfig).

Lemma firstIndex_none p i configs :
  (∀ c, c ∈ configs → p c = false) → firstIndex p i configs = (-1)%Z.
Proof.
  revert i. induction configs as [|c rest IH]; intros i Hall; simpl; [done|].
  rewrite (Hall c) by left. apply IH. intros c' Hc'. apply Hall. by right.
Qed.

Lemma firstIndex_found p i configs :
  (∃ c, c ∈ configs ∧ p c = true) →
  ∃ n, firstIndex p i configs = (i + Z.of_nat n)%Z ∧ firstWith p n configs.
Proof.
  revert i. induction configs as [|c rest IH]; intros i [c' [Hin Hp]].
  - by apply elem_of_nil in Hin.
  - simpl. destruct (p c) eqn:Hc.
    + exists 0%nat. split; [lia|]. split; [by exists c|]. intros j ? Hj; lia.
    + apply elem_of_cons in Hin as [->|Hin]; [congruence|].
      destruct (IH (i + 1)%Z) as [n [Hn [[d [Hd Hpd]] Hbefore]]]; [by exists c'|].
      exists (S n). split; [lia|]. split; [by exists d|].
      intros [|j] e Hj He; simpl in He; [congruence|].
      apply (Hbefore j); [lia|done].
Qed.

Lemma preferredCount_unmarked configs :
  Forall (λ c, Preferred c = false) configs → preferredCount configs = 0%nat.
Proof.
  unfold preferredCount. induction 1 as [|c rest Hc _ IH]; simpl; [done|].
  by rewrite Hc.
Qed.

Lemma preferredCount_alter n configs :
  Forall (λ c, Preferred c = false) configs →
  (preferredCount (alter setPreferred n configs) ≤ 1)%nat.
Proof.
  intros Hall. revert n. induction Hall as [|c rest Hc Hrest IH]; intros n.
  - destruct n; simpl; unfold preferredCount; simpl; lia.
  - destruct n as [|n]; unfold preferredCount in *; simpl.
    + fold (preferredCount rest). rewrite preferredCount_unmarked by done. lia.
    + rewrite Hc. apply IH.
Qed.

Lemma onlyMarked_alter n c configs :
  Forall (λ c, Preferred c = false) configs → configs !! n = Some c →
  onlyMarked n (alter setPreferred n configs).
Proof.
  intros Hall Hn j d Hj. destruct (decide (j = n)) as [->|Hne].
  - rewrite list_lookup_alter_eq, Hn in Hj. simpl in Hj.
    injection Hj as <-. simpl. done.
  - rewrite list_lookup_alter_ne in Hj by done.
    rewrite Forall_lookup in Hall. rewrite (Hall j d Hj). split; [done|congruence].
Qed.

End MarkPreferredFacts.

Section MarkPreferredSpec.
Import types utils.
Implicit Types (configs : list MCPServerConfig).

Lemma not_minus_one n : (0 + Z.of_nat n =? -1)%Z = false.
Proof. apply Z.eqb_neq. lia. Qed.

Lemma MarkPreferred_at n configs :
  preferredIndex configs = Z.of_nat n →
  MarkPreferred configs = alter setPreferred n configs.
Proof.
  intros Hidx. unfold MarkPreferred. cbv zeta. rewrite Hidx.
  replace (Z.of_nat n =? -1)%Z with false by (symmetry; apply Z.eqb_neq; lia).
  simpl. by rewrite Nat2Z.id.
Qed.

(** [MarkPreferred] returns the list with the entry at the first match of
    the winning priority loop marked, and [onlyMarked] holds of it when no
    entry was marked before. *)
Lemma marked_at p n configs :
  preferredIndex configs = Z.of_nat n → firstWith p n configs →
  ∃ i, firstWith p i configs ∧
       MarkPreferred configs = alter setPreferred i configs ∧
       (Forall (λ c, Preferred c = false) configs →
        onlyMarked i (MarkPreferred configs)).
Proof.
  intros Hidx Hfirst. exists n. split; [done|].
  rewrite (MarkPreferred_at n) by done. split; [done|].
  intros Hall. destruct Hfirst as [[c [Hc _]] _]. by apply (onlyMarked_alter n c).
Qed.

(** C6, as the code has it: [MarkPreferred] returns the list it was given
    with one flag written.  The entry marked is the first launched by
    [npx] if there is one, otherwise the first launched by [uv] or [uvx],
    otherwise the first launched by [docker]; with none of these the list
    comes back as it is.  Every entry stays at its position and a flag
    that was set stays set; on a list in which no entry is preferred yet,
    the entry marked is the only preferred one, so at most one is. *)
Theorem MarkPreferred_priority configs :
  (∀ j c, configs !! j = Some c →
     ∃ c', MarkPreferred configs !! j = Some c' ∧
           (Preferred c = true → Preferred c' = true)) ∧
  (Forall (λ c, Preferred c = false) configs →
   (preferredCount (MarkPreferred configs) ≤ 1)%nat) ∧
  ((∃ c, c ∈ configs ∧ isNpx c = true) →
   ∃ i, firstWith isNpx i configs ∧
        MarkPreferred configs = alter setPreferred i configs ∧
        (Forall (λ c, Preferred c = false) configs →
         onlyMarked i (MarkPreferred configs))) ∧
  ((∀ c, c ∈ configs → isNpx c = false) →
   (∃ c, c ∈ configs ∧ isUv c = true) →
   ∃ i, firstWith isUv i configs ∧
        MarkPreferred configs = alter setPreferred i configs ∧
        (Forall (λ c, Preferred c = false) configs →
         onlyMarked i (MarkPreferred configs))) ∧
  ((∀ c, c ∈ configs → isNpx c = false) →
   (∀ c, c ∈ configs → isUv c = false) →
   (∃ c, c ∈ configs ∧ isDocker c = true) →
   ∃ i, firstWith isDocker i configs ∧
        MarkPreferred configs = alter setPreferred i configs ∧
        (Forall (λ c, Preferred c = false) configs →
         onlyMarked i (MarkPreferred configs))) ∧
  ((∀ c, c ∈ configs → isNpx c = false) →
   (∀ c, c ∈ configs → isUv c = false) →
   (∀ c, c ∈ configs → isDocker c = false) →
   MarkPreferred configs = configs).
Proof.
  split; [|split; [|split; [|split; [|split]]]].
  - intros j c Hc. unfold MarkPreferred. cbv zeta.
    destruct (negb _); [|by exists c].
    destruct (decide (j = Z.to_nat (preferredIndex configs))) as [->|Hne].
    + exists (setPreferred c). by rewrite list_lookup_alter_eq, Hc.
    + exists c. by rewrite list_lookup_alter_ne.
  - intros Hall. unfold MarkPreferred. cbv zeta.
    destruct (negb _); [by apply preferredCount_alter|].
    rewrite preferredCount_unmarked by done. lia.
  - intros Hnpx.
    destruct (firstIndex_found isNpx 0 configs Hnpx) as [n [Hn Hfirst]].
    apply (marked_at isNpx n); [|done].
    unfold preferredIndex. cbv zeta. rewrite Hn, !not_minus_one. lia.
  - intros Hnpx Huv.
    destruct (firstIndex_found isUv 0 configs Huv) as [n [Hn Hfirst]].
    apply (marked_at isUv n); [|done].
    unfold preferredIndex. cbv zeta.
    rewrite (firstIndex_none isNpx) by done. cbv iota.
    rewrite Z.eqb_refl, Hn, not_minus_one. lia.
  - intros Hnpx Huv Hdocker.
    destruct (firstIndex_found isDocker 0 configs Hdocker) as [n [Hn Hfirst]].
    apply (marked_at isDocker n); [|done].
    unfold preferredIndex. cbv zeta.
    rewrite (firstIndex_none isNpx), Z.eqb_refl by done.
    rewrite (firstIndex_none isUv), Z.eqb_refl by done. rewrite Hn. lia.
  - intros Hnpx Huv Hdocker. unfold MarkPreferred, preferredIndex. cbv zeta.
    rewrite (firstIndex_none isNpx), Z.eqb_refl by done.
    rewrite (firstIndex_none isUv), Z.eqb_refl by done.
    by rewrite (firstIndex_none isDocker), Z.eqb_refl by done.
Qed.

End MarkPreferredSpec.

(** ** Deduplication of the search results *)

Section Dedup.
Import server.
Implicit Types (seen : gmap string bool) (r : github.CodeResult)
  (acc rest : list github.CodeResult).

Lemma Contains_cons c s sub :
  Strings.Contains (String c s) sub = false → Strings.Contains s sub = false.
Proof. simpl. intros H. by apply orb_false_elim in H as [_ H]. Qed.

Lemma no_colon_head c s :
  Strings.Contains (String c s) ":" = false → c ≠ ":"%char.
Proof.
  simpl. intros H Hc. subst c. apply orb_false_elim in H as [H _].
  simpl in H. by destruct s.
Qed.

Lemma append_nil (s : string) : "" ++ s = s.
Proof. reflexivity. Qed.

Lemma append_cons c (s t : string) : String c s ++ t = String c (s ++ t).
Proof. reflexivity. Qed.

(** A name without [":"] ends at the first [":"] of the key. *)
Lemma key_injective (a1 a2 p1 p2 : string) :
  Strings.Contains a1 ":" = false → Strings.Contains a2 ":" = false →
  a1 ++ ":" ++ p1 = a2 ++ ":" ++ p2 → a1 = a2 ∧ p1 = p2.
Proof.
  revert a2. induction a1 as [|c a1 IH]; intros [|d a2] H1 H2 Heq;
    repeat (rewrite append_nil in Heq || rewrite append_cons in Heq).
  - by injection Heq as ->.
  - injection Heq as Hd _. by destruct (no_colon_head d a2).
  - injection Heq as Hc _. by destruct (no_colon_head c a1).
  - injection Heq as -> Heq.
    destruct (IH a2) as [-> ->]; eauto using Contains_cons.
Qed.

Lemma dedupLoop_spec seen acc rest :
  (∀ k, default false (seen !! k) = true ↔ k ∈ keyOf <$> acc) →
  NoDup (keyOf <$> acc) →
  NoDup (keyOf <$> dedupLoop seen acc rest) ∧
  (∀ r, r ∈ (acc ++ rest)%list → keyOf r ∈ keyOf <$> dedupLoop seen acc rest) ∧
  ∃ kept, dedupLoop seen acc rest = (acc ++ kept)%list ∧ kept `sublist_of` rest.
Proof.
  revert seen acc. induction rest as [|r rest IH]; intros seen acc Hseen Hnodup.
  - simpl. split; [done|]. split.
    + intros r. rewrite app_nil_r. apply list_elem_of_fmap_2.
    + exists []. by rewrite app_nil_r.
  - simpl. fold (keyOf r). destruct (default false (seen !! keyOf r)) eqn:Hk; simpl.
    + destruct (IH seen acc Hseen Hnodup) as (Hnd & Hin & kept & Hout & Hsub).
      split; [done|]. split.
      * intros r'. rewrite elem_of_app, elem_of_cons.
        intros [Hr'|[->|Hr']].
        -- apply Hin, elem_of_app. by left.
        -- rewrite Hout, fmap_app, elem_of_app. left. by apply Hseen.
        -- apply Hin, elem_of_app. by right.
      * exists kept. split; [done|]. by apply sublist_cons.
    + destruct (IH (<[keyOf r := true]> seen) (acc ++ [r])%list)
        as (Hnd & Hin & kept & Hout & Hsub).
      * intros k. rewrite fmap_app, elem_of_app. simpl.
        rewrite list_elem_of_singleton, <- Hseen.
        destruct (decide (keyOf r = k)) as [->|Hne].
        -- rewrite lookup_insert_eq. simpl. split; [by right|done].
        -- rewrite lookup_insert_ne by done.
           split; [by left|]. intros [?|?]; [done|congruence].
      * rewrite fmap_app. apply NoDup_app. split; [done|]. split.
        -- intros k Hacc Hk'. apply list_elem_of_singleton in Hk'. subst k.
           apply Hseen in Hacc. congruence.
        -- apply NoDup_singleton.
      * split; [done|]. split.
        -- intros r' Hr'. apply Hin. rewrite <- app_assoc. done.
        -- exists (r :: kept). rewrite Hout, <- app_assoc. split; [done|].
           by apply sublist_skip.
Qed.

(** C8: on search results as GitHub gives them, where the full name
    [owner/repo] of a repository holds no [":"], the deduplication loop of
    [searchReposByReadme] keeps exactly one candidate per distinct pair of
    full name and path: no pair occurs twice among the candidates kept,
    every pair of the input is the pair of a candidate kept, and the
    candidates kept are results of the input, in their order. *)
Theorem uniqueRepos_one_per_pair (allRepos : list github.CodeResult) :
  Forall (λ r, Strings.Contains (github.FullName (github.Repo r)) ":" = false)
    allRepos →
  NoDup (pairOf <$> uniqueRepos allRepos) ∧
  (∀ r, r ∈ allRepos → pairOf r ∈ pairOf <$> uniqueRepos allRepos) ∧
  uniqueRepos allRepos `sublist_of` allRepos.
Proof.
  intros Hnames. unfold uniqueRepos.
  destruct (dedupLoop_spec ∅ [] allRepos) as (Hnd & Hin & kept & Hout & Hsub).
  { intros k. rewrite lookup_empty. simpl. rewrite elem_of_nil. naive_solver. }
  { constructor. }
  simpl in Hout. split; [|split].
  - apply (NoDup_fmap_1 (λ p : string * string, p.1 ++ ":" ++ p.2)).
    by rewrite <- list_fmap_compose.
  - intros r Hr. specialize (Hin r Hr).
    apply list_elem_of_fmap in Hin as (r' & Hkey & Hr').
    assert (pairOf r = pairOf r') as ->; [|by apply list_elem_of_fmap_2].
    rewrite Forall_forall in Hnames.
    assert (r' ∈ allRepos) as Hr'in.
    { rewrite Hout in Hr'. by apply (elem_of_sublist kept). }
    unfold keyOf in Hkey. apply key_injective in Hkey as [Hn Hp].
    + unfold pairOf. by rewrite Hn, Hp.
    + by apply Hnames.
    + by apply Hnames.
  - by rewrite Hout.
Qed.

End Dedup.

(** ** [SaveRepo] on an existing record *)

Section SaveRepoFacts.
Import types.
Context (env : Services).

(** C9: on an existing record, with [proposed = true] and a database that
    accepts the statement, [SaveRepo] overwrites [url], [description],
    [display_name], [stars], [readme_content], [language], [path], [icon],
    [metadata] and [tool_definitions] (and [proposed_manifest]) with the
    values of [repo] at once; the [manifest] column keeps its value, and no
    other row changes. *)
Theorem SaveRepo_proposed_overwrites (repo : RepoInfo) (row : Store.Row)
    (t : gmap string Store.Row) :
  t !! FullName repo = Some row →
  dbAccepts env →
  ∃ w' row',
    run (utils.SaveRepo env repo true) t = (Ok tt, w') ∧
    table w' !! FullName repo = Some row' ∧
    Store.url row' = URL repo ∧
    Store.description row' = Description repo ∧
    Store.display_name row' = DisplayName repo ∧
    Store.stars row' = Stars repo ∧
    Store.readme_content row' = ReadmeContent repo ∧
    Store.language row' = Language repo ∧
    Store.path row' = Path repo ∧
    Store.icon row' = Icon repo ∧
    Store.metadata row' = Metadata repo ∧
    Store.tool_definitions row' = ToolDefinitions repo ∧
    Store.proposed_manifest row' = Some (ProposedManifest repo) ∧
    Store.manifest row' = Store.manifest row ∧
    ∀ k, k ≠ FullName repo → table w' !! k = t !! k.
Proof.
  intros Hrow Hdb. unfold utils.SaveRepo. unfold_monad.
  rewrite !Hdb, Hrow. simpl.
  eexists _, _. split; [reflexivity|]. simpl.
  rewrite lookup_alter_eq, Hrow. simpl.
  repeat (split; [reflexivity|]).
  intros k Hk. by rewrite lookup_alter_ne.
Qed.

(** C10: on an existing record, with [proposed = false] and a database
    that accepts the statement, [SaveRepo] writes [repo.Manifest] into
    [manifest] and resets [proposed_manifest] to the placeholder ["{}"],
    whatever proposal was pending. *)
Theorem SaveRepo_accepted_resets_proposal (repo : RepoInfo) (row : Store.Row)
    (t : gmap string Store.Row) :
  t !! FullName repo = Some row →
  dbAccepts env →
  ∃ w' row',
    run (utils.SaveRepo env repo false) t = (Ok tt, w') ∧
    table w' !! FullName repo = Some row' ∧
    Store.manifest row' = Manifest repo ∧
    Store.proposed_manifest row' = Some "{}".
Proof.
  intros Hrow Hdb. unfold utils.SaveRepo. unfold_monad.
  rewrite !Hdb, Hrow. simpl.
  eexists _, _. split; [reflexivity|]. simpl.
  rewrite lookup_alter_eq, Hrow. simpl. done.
Qed.

End SaveRepoFacts.

(** ** [AddRepo]: the keyword filter and the unchanged README *)

Section AddRepoEarlyReturns.
Import types.
Context {codec : JSON} (env : Services).

Lemma alter_existing (f : Store.Row → Store.Row) (k : string)
    (row : Store.Row) (t : gmap string Store.Row) :
  t !! k = Some row → alter f k t = <[k := f row]> t.
Proof.
  intros Hrow. apply map_eq. intros k'. destruct (decide (k = k')) as [<-|Hne].
  - by rewrite lookup_alter_eq, lookup_insert_eq, Hrow.
  - by rewrite lookup_alter_ne, lookup_insert_ne.
Qed.

(** C7: when the README holds none of [mcpServers], [npx], [docker] and
    [uv], [AddRepo] returns the error "no MCP server found" after the two
    GitHub calls: the table is as before and no database call, read or
    write, was made. *)
Theorem AddRepo_rejects_without_keyword (owner repo path : string)
    (force : bool) (t : gmap string Store.Row) (g : github.Repository)
    (readme : string) :
  github_Get env owner repo = Ok g →
  github_GetContents env (github.OwnerLogin g) (github.Name g) path = Ok readme →
  Strings.Contains readme "mcpServers" = false →
  Strings.Contains readme "npx" = false →
  Strings.Contains readme "docker" = false →
  Strings.Contains readme "uv" = false →
  ∃ w', run (server.AddRepo env owner repo path force) t
        = (Err (noManifestFound (derive.fullName g path)), w') ∧
        table w' = t ∧
        Forall (λ e, isDbEvent e = false) (trace w').
Proof.
  intros Hg Hc H1 H2 H3 H4.
  unfold server.AddRepo. unfold_monad. rewrite Hg, Hc.
  unfold derive.noLaunchKeyword. rewrite H1, H2, H3, H4. simpl.
  eexists. split; [reflexivity|]. simpl. split; [done|]. repeat constructor.
Qed.

(** X24: with [force = false], when the [SELECT] by name works and finds
    the record, and the stored [readme_content] equals the README just
    fetched, the record is left as it is by [AddRepo] of [collect.go], and
    by the later [AddRepo] up to its [icon], which is set to the owner's
    avatar URL when it was empty and the database accepts the update;
    neither version calls the language model or the backfill. *)
Theorem AddRepo_unchanged_readme (owner repo path : string)
    (t : gmap string Store.Row) (g : github.Repository) (row : Store.Row) :
  github_Get env owner repo = Ok g →
  github_GetContents env (github.OwnerLogin g) (github.Name g) path
    = Ok (Store.readme_content row) →
  t !! derive.fullName g path = Some row →
  db_error env (Store.Select (derive.fullName g path)) = None →
  (∀ r w', run (server.AddRepo env owner repo path false) t = (r, w') →
     table w' = t ∧ Forall (λ e, isOracleEvent e = false) (trace w')) ∧
  (∀ r w', run (server_refactored.AddRepo env owner repo path false) t = (r, w') →
     (table w' = t ∨
      Store.icon row = "" ∧
      table w' = <[derive.fullName g path :=
                     withIcon (github.OwnerAvatarURL g) row]> t) ∧
     Forall (λ e, isOracleEvent e = false) (trace w')).
Proof.
  intros Hg Hc Hrow Hsel. split; intros r w'.
  - unfold server.AddRepo. unfold_monad. rewrite Hg, Hc.
    destruct (derive.noLaunchKeyword _).
    + intros [= <- <-]. simpl. split; [done|repeat constructor].
    + rewrite Hsel, Hrow. simpl. rewrite String.eqb_refl. simpl.
      intros [= <- <-]. simpl. split; [done|repeat constructor].
  - unfold server_refactored.AddRepo. unfold_monad. rewrite Hg, Hc.
    destruct (derive.noLaunchKeyword _).
    + intros [= <- <-]. simpl. split; [by left|repeat constructor].
    + rewrite Hsel, Hrow. simpl. rewrite String.eqb_refl. simpl.
      destruct (String.eqb (Store.icon row) "") eqn:Hicon.
      * apply String.eqb_eq in Hicon.
        destruct (db_error env (Store.Exec _)); intros [= <- <-]; simpl.
        -- split; [by left|repeat constructor].
        -- split; [|repeat constructor]. right. split; [done|].
           by apply alter_existing.
      * intros [= <- <-]. simpl. split; [by left|repeat constructor].
Qed.

End AddRepoEarlyReturns.

(** ** [AddRepo]: backfill failure, proposals and a failing oracle *)

Section AddRepoAnalysis.
Import types.
Context {codec : JSON} (env : Services).

(** C4: a run of [AddRepo] in which the backfill was started and failed
    returns an error and persists nothing: the table is as before and
    [SaveRepo] issued neither its count query nor a statement. *)
Theorem AddRepo_backfill_failure_persists_nothing (owner repo path : string)
    (force : bool) (t : gmap string Store.Row) (r : Result unit) (w' : World)
    (fullName : string) :
  run (server.AddRepo env owner repo path force) t = (r, w') →
  EvScrape fullName false ∈ trace w' →
  (∃ e, r = Err e) ∧ table w' = t ∧
  Forall (λ e, isSaveEvent e = false) (trace w').
Proof.
  unfold_flow. intros Hrun Hev.
  repeat (case_match; simplify_eq/=);
    first [ no_such_event Hev
          | split; [eauto|split; [done|repeat constructor]] ].
Qed.

(** X23: with [force = false], a [SELECT] by name that works, and a stored
    record whose accepted manifest is neither empty nor the placeholder
    ["{}"], [AddRepo] leaves the [manifest] column of that record as it
    was, whatever else happens; and when the README has changed, the
    language model returns configs and the run succeeds,
    [proposed_manifest] holds the encoded configs after preferred
    selection. *)
Theorem AddRepo_proposes_keeps_manifest (owner repo path : string)
    (t : gmap string Store.Row) (g : github.Repository) (row : Store.Row)
    (r : Result unit) (w' : World) :
  github_Get env owner repo = Ok g →
  t !! derive.fullName g path = Some row →
  Store.manifest row ≠ "" →
  Store.manifest row ≠ "{}" →
  db_error env (Store.Select (derive.fullName g path)) = None →
  run (server.AddRepo env owner repo path false) t = (r, w') →
  ∃ row',
    table w' !! derive.fullName g path = Some row' ∧
    Store.manifest row' = Store.manifest row ∧
    ∀ readme content rest m,
      github_GetContents env (github.OwnerLogin g) (github.Name g) path
        = Ok readme →
      readme ≠ Store.readme_content row →
      openai_Chat env (derive.fullName g path) readme = Ok (content :: rest) →
      Unmarshal_manifest content = (m, None) →
      Configs m ≠ [] →
      r = Ok tt →
      Store.proposed_manifest row'
        = Some (Marshal_configs (utils.MarkPreferred (Configs m))).
Proof.
  intros Hg Hrow Hne1 Hne2 Hsel.
  apply String.eqb_neq in Hne1, Hne2.
  unfold_flow. rewrite Hg. unfold utils.decideProposed.
  destruct (github_GetContents env _ _ path) as [readme0|e0] eqn:Hc0;
    [|intros [= <- <-]; exists row; repeat split; [done|];
      intros; simplify_eq].
  destruct (derive.noLaunchKeyword readme0);
    [intros [= <- <-]; exists row; repeat split; [done|];
      intros; simplify_eq|].
  rewrite Hsel, Hrow. simpl. rewrite Hne1, Hne2. simpl.
  intros Hrun.
  repeat (case_match; simplify_eq/=);
    rewrite ?lookup_alter_eq, ?Hrow; simpl;
    (eexists; split; [reflexivity|]; split; [reflexivity|]);
    intros ? ? ? ? Hc Hchanged Hchat Hdec Hcfg Hr;
    simplify_eq/=; try done; try congruence.
  match goal with
  | Hsame : (_ =? _) && true = true |- _ =>
      apply andb_prop in Hsame as [Hsame _];
      apply String.eqb_eq in Hsame; congruence
  end.
Qed.

(** [SaveRepo] from any world issues its count query, and none of its
    errors is "no MCP server found". *)
Lemma SaveRepo_reached (repo : RepoInfo) (proposed : bool) (w w' : World)
    (r : Result unit) (fullName : string) :
  utils.SaveRepo env repo proposed w = (r, w') →
  EvDb (Store.Count (FullName repo)) ∈ trace w' ∧
  r ≠ Err (noManifestFound fullName).
Proof.
  unfold utils.SaveRepo. unfold_monad. intros Hrun.
  repeat (case_match; simplify_eq/=).
  all: split;
    [rewrite ?elem_of_app, ?list_elem_of_singleton; eauto 10
    |intros Heq; cbv [noManifestFound String.append] in Heq;
     try discriminate Heq].
Qed.

(** C3, as the code has it: when the call to the language model fails
    (API error, no choice, or a first choice that does not decode) and the
    manifest returned next to the error carries no preferred config,
    [UpdateRepo] and [AddRepo] do not stop.  The error is logged, the
    analysis and the backfill are skipped, and the run ends in [SaveRepo]
    on the record as it was before the analysis: for [UpdateRepo] the
    record it was given, for [AddRepo] the record built from the GitHub
    data and the README, with manifest, proposed manifest and metadata
    empty; in both the tool definitions are ["{}"] when they were empty.
    The count query of [SaveRepo] is issued, what the run returns is what
    that [SaveRepo] returns, and it is never "no MCP server found". *)
Theorem oracle_failure_still_saves (fullName readme : string)
    (partial : MCPServerManifest) :
  OracleFailure env fullName readme partial →
  utils.foundPreferred (Configs partial) = false →
  (∀ repo force t r w',
     run (utils.UpdateRepo env repo force fullName readme) t = (r, w') →
     utils.SaveRepo env
       (if String.eqb (ToolDefinitions repo) ""
        then utils.setToolDefinitions "{}" repo else repo)
       (utils.decideProposed (Manifest repo) force)
       {| table := t; trace := [EvOpenAI fullName readme] |} = (r, w') ∧
     EvDb (Store.Count (FullName repo)) ∈ trace w' ∧
     r ≠ Err (noManifestFound fullName)) ∧
  (∀ owner repo path force t g r w',
     github_Get env owner repo = Ok g →
     github_GetContents env (github.OwnerLogin g) (github.Name g) path
       = Ok readme →
     derive.fullName g path = fullName →
     derive.noLaunchKeyword readme = false →
     (force = true ∨
      ∀ row, t !! fullName = Some row → Store.readme_content row ≠ readme) →
     run (server.AddRepo env owner repo path force) t = (r, w') →
     utils.SaveRepo env
       (utils.setToolDefinitions "{}" (derive.repoInfo g path readme))
       (utils.decideProposed
          (Manifest (server.scanRepoFromDB (selected env t fullName))) force)
       {| table := t;
          trace := [EvGithubGet owner repo;
                    EvGithubGetContents (github.OwnerLogin g) (github.Name g)
                      path;
                    EvDb (Store.Select fullName);
                    EvOpenAI fullName readme] |} = (r, w') ∧
     EvDb (Store.Count fullName) ∈ trace w' ∧
     r ≠ Err (noManifestFound fullName)).
Proof.
  intros Hfail Hpref. split.
  - intros repo force t r w' Hrun.
    assert (utils.SaveRepo env
              (if String.eqb (ToolDefinitions repo) ""
               then utils.setToolDefinitions "{}" repo else repo)
              (utils.decideProposed (Manifest repo) force)
              {| table := t; trace := [EvOpenAI fullName readme] |} = (r, w'))
      as Hsave.
    { revert Hrun. unfold utils.UpdateRepo, utils.AnalyzeWithOpenAI.
      unfold_monad.
      destruct Hfail as [e He|He|content rest partial e He Hdec];
        rewrite He, ?Hdec, ?Hpref; simpl; done. }
    split; [exact Hsave|].
    destruct (SaveRepo_reached _ _ _ _ _ fullName Hsave) as [Hcount Hne].
    split; [|exact Hne]. by destruct (String.eqb (ToolDefinitions repo) "").
  - intros owner repo path force t g r w' Hg Hc Hfn Hkw Hchanged Hrun.
    assert (utils.SaveRepo env
              (utils.setToolDefinitions "{}" (derive.repoInfo g path readme))
              (utils.decideProposed
                 (Manifest (server.scanRepoFromDB (selected env t fullName)))
                 force)
              {| table := t;
                 trace := [EvGithubGet owner repo;
                           EvGithubGetContents (github.OwnerLogin g)
                             (github.Name g) path;
                           EvDb (Store.Select fullName);
                           EvOpenAI fullName readme] |} = (r, w')) as Hsave.
    { revert Hrun.
      unfold server.AddRepo, utils.AnalyzeWithOpenAI, selected. unfold_monad.
      rewrite Hg, Hc, Hkw, Hfn.
      assert (∀ row, t !! fullName = Some row →
                String.eqb (Store.readme_content row) readme && negb force
                = false) as Hgo.
      { intros row Hrow. destruct Hchanged as [->|Hdiff];
          [apply andb_false_r|].
        apply Hdiff, String.eqb_neq in Hrow. by rewrite Hrow. }
      destruct (db_error env (Store.Select fullName)) as [e0|];
        [|destruct (t !! fullName) as [row|] eqn:Hrow;
          [simpl; rewrite (Hgo row eq_refl)|]];
        simpl;
        destruct Hfail as [e He|He|content rest partial e He Hdec];
        rewrite He, ?Hdec, ?Hpref; simpl; done. }
    split; [exact Hsave|].
    destruct (SaveRepo_reached _ _ _ _ _ fullName Hsave) as [Hcount Hne].
    split; [|exact Hne]. simpl in Hcount. by rewrite Hfn in Hcount.
Qed.

End AddRepoAnalysis.

(** ** The categories [UpdateRepo] writes *)

(** [UpdateRepo] keeps the category of the language model as it is when the
    stored categories carry [Verified], and appends [,Verified] when they
    do not. *)
Lemma mergeCategories_lookup (metadata : gmap string string) (category : string) :
  utils.mergeCategories metadata category !! "categories"
  = Some (if hasTag "Verified" (default "" (metadata !! "categories"))
          then category else category ++ ",Verified").
Proof.
  unfold utils.mergeCategories, hasTag. cbv zeta.
  rewrite lookup_insert_eq. by destruct (Strings.slices_Contains _ _).
Qed.

(** ** The model on the sample repository *)

Section Examples.
Import types sample.

(** A run is the pair of its result and its final world. *)
Lemma run_pair {A} (m : M A) (t : gmap string Store.Row) :
  run m t = ((run m t).1, (run m t).2).
Proof. by destruct (run m t). Defined.

(** The database of the sample services accepts every call. *)
Lemma sample_accepts readme chat tools :
  dbAccepts (sample.services readme chat tools).
Proof. intros c. reflexivity. Defined.

(** C6, the claim as written fails: the language model may return a config
    that already carries [preferred = true]; [MarkPreferred] marks the
    [npx] entry and leaves the earlier mark, so two entries are
    preferred. *)
Lemma MarkPreferred_keeps_earlier_mark :
  preferredCount
    (utils.MarkPreferred [sample.cfg "docker" true; sample.cfg "npx" false])
  = 2%nat ∧
  ¬ (preferredCount
       (utils.MarkPreferred [sample.cfg "docker" true; sample.cfg "npx" false])
     ≤ 1)%nat.
Proof. split; [reflexivity|]. vm_compute. lia. Qed.

(** [MarkPreferred_priority] on [docker, npx, npx], none preferred yet:
    the first [npx] entry is marked and the list is otherwise as it was. *)
Lemma MarkPreferred_priority_witness :
  Forall (λ c, Preferred c = false)
    [sample.cfg "docker" false; sample.cfg "npx" false; sample.cfg "npx" false] ∧
  utils.MarkPreferred
    [sample.cfg "docker" false; sample.cfg "npx" false; sample.cfg "npx" false]
  = [sample.cfg "docker" false; sample.cfg "npx" true; sample.cfg "npx" false] ∧
  (preferredCount
     (utils.MarkPreferred
        [sample.cfg "docker" false; sample.cfg "npx" false;
         sample.cfg "npx" false]) ≤ 1)%nat.
Proof.
  assert (Forall (λ c, Preferred c = false)
            [sample.cfg "docker" false; sample.cfg "npx" false;
             sample.cfg "npx" false]) as Hall
    by (repeat constructor).
  split; [exact Hall|]. split; [reflexivity|].
  exact (proj1 (proj2 (MarkPreferred_priority _)) Hall).
Defined.

(** [uniqueRepos_one_per_pair] on [sample.hits]: three candidates are kept. *)
Lemma uniqueRepos_one_per_pair_witness :
  Forall (λ r, Strings.Contains (github.FullName (github.Repo r)) ":" = false)
    hits ∧
  NoDup (pairOf <$> server.uniqueRepos hits) ∧
  length (server.uniqueRepos hits) = 3%nat.
Proof.
  assert (Forall (λ r, Strings.Contains (github.FullName (github.Repo r)) ":"
                       = false) hits) as Hnames
    by (repeat constructor).
  split; [exact Hnames|].
  split; [exact (proj1 (uniqueRepos_one_per_pair hits Hnames))|reflexivity].
Defined.

(** [SaveRepo_proposed_overwrites] on the stored record of [acme/server-a]. *)
Lemma SaveRepo_proposed_overwrites_witness :
  sample.storedTable !! FullName storedRepo = Some sample.storedRow ∧
  dbAccepts envChanged ∧
  ∃ w' row',
    run (utils.SaveRepo envChanged storedRepo true) sample.storedTable
      = (Ok tt, w') ∧
    table w' !! FullName storedRepo = Some row' ∧
    Store.manifest row' = Store.manifest sample.storedRow.
Proof.
  assert (sample.storedTable !! FullName storedRepo = Some sample.storedRow)
    as Hrow by reflexivity.
  split; [exact Hrow|]. split; [apply sample_accepts|].
  destruct (SaveRepo_proposed_overwrites envChanged storedRepo sample.storedRow
              sample.storedTable Hrow (sample_accepts _ _ _))
    as (w' & row' & Hrun & Hlook & Hrest).
  exists w', row'. split; [exact Hrun|]. split; [exact Hlook|].
  apply Hrest.
Defined.

(** [SaveRepo_accepted_resets_proposal] on the same record. *)
Lemma SaveRepo_accepted_resets_proposal_witness :
  sample.storedTable !! FullName storedRepo = Some sample.storedRow ∧
  dbAccepts envChanged ∧
  ∃ w' row',
    run (utils.SaveRepo envChanged storedRepo false) sample.storedTable
      = (Ok tt, w') ∧
    table w' !! FullName storedRepo = Some row' ∧
    Store.proposed_manifest row' = Some "{}".
Proof.
  assert (sample.storedTable !! FullName storedRepo = Some sample.storedRow)
    as Hrow by reflexivity.
  split; [exact Hrow|]. split; [apply sample_accepts|].
  destruct (SaveRepo_accepted_resets_proposal envChanged storedRepo
              sample.storedRow sample.storedTable Hrow (sample_accepts _ _ _))
    as (w' & row' & Hrun & Hlook & _ & Hprop).
  exists w', row'. split; [exact Hrun|]. split; [exact Hlook|exact Hprop].
Defined.

(** [AddRepo_rejects_without_keyword] on a README without any keyword, even
    with [force]. *)
Lemma AddRepo_rejects_without_keyword_witness :
  github_Get envPlain "acme" "server-a" = Ok repository ∧
  Strings.Contains readme_plain "mcpServers" = false ∧
  Strings.Contains readme_plain "npx" = false ∧
  Strings.Contains readme_plain "docker" = false ∧
  Strings.Contains readme_plain "uv" = false ∧
  ∃ w', run (server.AddRepo (codec := json) envPlain "acme" "server-a"
               "README.md" true) storedTable
        = (Err (noManifestFound "acme/server-a"), w') ∧
        table w' = storedTable.
Proof.
  do 5 (split; [reflexivity|]).
  destruct (AddRepo_rejects_without_keyword (codec := json) envPlain
              "acme" "server-a" "README.md" true storedTable repository
              readme_plain eq_refl eq_refl eq_refl eq_refl eq_refl eq_refl)
    as (w' & Hrun & Htable & _).
  exists w'. split; [exact Hrun|exact Htable].
Defined.

(** [AddRepo_unchanged_readme] on the stored record and the README it was
    built from; the stored icon is empty, so the later [AddRepo] fills it. *)
Lemma AddRepo_unchanged_readme_witness :
  github_Get envUnchanged "acme" "server-a" = Ok repository ∧
  github_GetContents envUnchanged "acme" "server-a" "README.md"
    = Ok (Store.readme_content storedRow) ∧
  storedTable !! "acme/server-a" = Some storedRow ∧
  table (run (server.AddRepo (codec := json) envUnchanged "acme" "server-a"
                "README.md" false) storedTable).2 = storedTable ∧
  (table (run (server_refactored.AddRepo (codec := json) envUnchanged "acme"
                 "server-a" "README.md" false) storedTable).2 = storedTable ∨
   Store.icon storedRow = "" ∧
   table (run (server_refactored.AddRepo (codec := json) envUnchanged "acme"
                 "server-a" "README.md" false) storedTable).2
   = <["acme/server-a" := withIcon "https://avatars.example/acme.png" storedRow]>
       storedTable).
Proof.
  do 3 (split; [reflexivity|]).
  destruct (AddRepo_unchanged_readme (codec := json) envUnchanged "acme"
              "server-a" "README.md" storedTable repository storedRow
              eq_refl eq_refl eq_refl eq_refl) as [Hold Hnew].
  split.
  - exact (proj1 (Hold _ _ (run_pair _ _))).
  - exact (proj1 (Hnew _ _ (run_pair _ _))).
Defined.

(** [AddRepo_backfill_failure_persists_nothing] on a new candidate whose
    analysis marks the [npx] config and whose backfill fails. *)
Lemma AddRepo_backfill_failure_witness :
  EvScrape "acme/server-a" false
    ∈ trace (run (server.AddRepo (codec := json) envBackfillDown "acme"
                    "server-a" "README.md" false) ∅).2 ∧
  (∃ e, (run (server.AddRepo (codec := json) envBackfillDown "acme"
                "server-a" "README.md" false) ∅).1 = Err e) ∧
  table (run (server.AddRepo (codec := json) envBackfillDown "acme"
                "server-a" "README.md" false) ∅).2 = ∅.
Proof.
  assert (EvScrape "acme/server-a" false
            ∈ trace (run (server.AddRepo (codec := json) envBackfillDown "acme"
                            "server-a" "README.md" false) ∅).2) as Hev
    by (vm_compute; event_here).
  split; [exact Hev|].
  destruct (AddRepo_backfill_failure_persists_nothing (codec := json)
              envBackfillDown "acme" "server-a" "README.md" false ∅ _ _
              "acme/server-a" (run_pair _ _) Hev) as (Herr & Htable & _).
  split; [exact Herr|exact Htable].
Defined.

(** [AddRepo_proposes_keeps_manifest] on the stored record and a changed
    README: the accepted manifest stays, the proposal holds both configs
    with [npx] preferred. *)
Lemma AddRepo_proposes_keeps_manifest_witness :
  github_Get envChanged "acme" "server-a" = Ok repository ∧
  storedTable !! "acme/server-a" = Some storedRow ∧
  Store.manifest storedRow ≠ "" ∧
  Store.manifest storedRow ≠ "{}" ∧
  ∃ row',
    table (run (server.AddRepo (codec := json) envChanged "acme" "server-a"
                  "README.md" false) storedTable).2 !! "acme/server-a"
      = Some row' ∧
    Store.manifest row' = Store.manifest storedRow ∧
    Store.proposed_manifest row'
      = Some (Marshal_configs (JSON := json)
                [cfg "docker" false; cfg "npx" true]).
Proof.
  assert (Store.manifest storedRow ≠ "") as Hne1 by (vm_compute; discriminate).
  assert (Store.manifest storedRow ≠ "{}") as Hne2 by (vm_compute; discriminate).
  do 2 (split; [reflexivity|]). split; [exact Hne1|]. split; [exact Hne2|].
  destruct (AddRepo_proposes_keeps_manifest (codec := json) envChanged "acme"
              "server-a" "README.md" storedTable repository storedRow _ _
              eq_refl eq_refl Hne1 Hne2 eq_refl (run_pair _ _))
    as (row' & Hlook & Hmanifest & Hproposed).
  exists row'. split; [exact Hlook|]. split; [exact Hmanifest|].
  apply (Hproposed readme_new completion [] analysis);
    [reflexivity|vm_compute; discriminate|reflexivity|reflexivity
    |discriminate|reflexivity].
Defined.

(** C3, the claim as written fails.  While the API of the language model
    errs, [UpdateRepo] on the stored record of [acme/server-a] reaches
    [SaveRepo], which issues its count query and the update of the record;
    every parameter of that update is valid JSON where the column is
    [JSONB], the record is updated and the call returns [nil].  [AddRepo]
    on a changed README of the same repository reaches [SaveRepo] as well;
    its update passes the empty text as proposed manifest and as metadata,
    which a database like Postgres refuses, and the error returned is that
    of the update, not "no MCP server found". *)
Lemma oracle_failure_is_persisted :
  openai_Chat envOracleDown "acme/server-a" readme_old = Err "status 500" ∧
  run (utils.UpdateRepo (codec := json) envOracleDown storedRepo false
         "acme/server-a" readme_old) storedTable
  = (Ok tt,
     {| table :=
          <["acme/server-a" :=
              {| Store.url := Store.url storedRow;
                 Store.description := Store.description storedRow;
                 Store.display_name := Store.display_name storedRow;
                 Store.stars := Store.stars storedRow;
                 Store.readme_content := Store.readme_content storedRow;
                 Store.language := Store.language storedRow;
                 Store.path := Store.path storedRow;
                 Store.manifest := Store.manifest storedRow;
                 Store.icon := Store.icon storedRow;
                 Store.metadata := Store.metadata storedRow;
                 Store.tool_definitions := Store.tool_definitions storedRow;
                 Store.proposed_manifest := Some "{}" |}]> storedTable;
        trace :=
          [EvOpenAI "acme/server-a" readme_old;
           EvDb (Store.Count "acme/server-a");
           EvDb (Store.Exec
                   (Store.UpdateProposed (URL storedRepo)
                      (Description storedRepo) (DisplayName storedRepo)
                      (Stars storedRepo) (ReadmeContent storedRepo)
                      (Language storedRepo) (Path storedRepo) "{}" ""
                      (Metadata storedRepo) "[]" "acme/server-a"))] |}) ∧
  sample_faults.passesEmptyJSON
    (Store.UpdateProposed (URL storedRepo) (Description storedRepo)
       (DisplayName storedRepo) (Stars storedRepo) (ReadmeContent storedRepo)
       (Language storedRepo) (Path storedRepo) "{}" "" (Metadata storedRepo)
       "[]" "acme/server-a") = false ∧
  (run (server.AddRepo (codec := json) sample_faults.oracleDownStrict "acme"
          "server-a" "README.md" false) storedTable).1
  = Err ("error updating repository acme/server-a: "
         ++ "pq: invalid input syntax for type json") ∧
  EvDb (Store.Count "acme/server-a")
    ∈ trace (run (server.AddRepo (codec := json)
                    sample_faults.oracleDownStrict "acme" "server-a"
                    "README.md" false) storedTable).2.
Proof.
  split; [reflexivity|]. split.
  { unfold run. vm_compute. reflexivity. }
  split; [reflexivity|]. split; [reflexivity|].
  vm_compute. event_here.
Qed.

(** [oracle_failure_still_saves] on a new candidate while the API of the
    language model errs. *)
Lemma oracle_failure_still_saves_witness :
  OracleFailure (codec := json) envOracleDown "acme/server-a" readme_new
    zeroManifest ∧
  utils.foundPreferred (Configs zeroManifest) = false ∧
  EvDb (Store.Count "acme/server-a")
    ∈ trace (run (server.AddRepo (codec := json) envOracleDown "acme"
                    "server-a" "README.md" false) ∅).2 ∧
  (run (server.AddRepo (codec := json) envOracleDown "acme" "server-a"
          "README.md" false) ∅).1
  ≠ Err (noManifestFound "acme/server-a").
Proof.
  assert (OracleFailure (codec := json) envOracleDown "acme/server-a"
            readme_new zeroManifest) as Hfail
    by (apply (ApiError _ _ _ "status 500"); reflexivity).
  split; [exact Hfail|]. split; [reflexivity|].
  destruct (oracle_failure_still_saves (codec := json) envOracleDown
              "acme/server-a" readme_new zeroManifest Hfail eq_refl)
    as [_ Hadd].
  assert (false = true ∨
          ∀ row, (∅ : gmap string Store.Row) !! "acme/server-a" = Some row →
                 Store.readme_content row ≠ readme_new) as Hnew
    by (right; intros row Hrow; rewrite lookup_empty in Hrow;
        discriminate Hrow).
  destruct (Hadd "acme" "server-a" "README.md" false ∅ repository _ _
              eq_refl eq_refl eq_refl eq_refl Hnew (run_pair _ _))
    as (_ & Hcount & Hne).
  split; [exact Hcount|exact Hne].
Defined.

(** C1, the code against the claim.  The table holds [acme/server-a] with
    an accepted manifest, the README has changed and [force] is [false].
    The [SELECT] of [AddRepo] fails; the error is not looked at,
    [repoFromDB] stays empty, and [AddRepo] decides [proposed = false] as
    for a new record.  The count query of [SaveRepo] finds the row, and
    its update writes the new analysis over the accepted manifest and
    resets [proposed_manifest]. *)
Theorem accepted_manifest_overwritten_after_failed_select :
  storedTable !! "acme/server-a" = Some storedRow ∧
  Store.manifest storedRow ≠ "" ∧
  Store.manifest storedRow ≠ "{}" ∧
  db_error (sample_faults.selectDown readme_new)
    (Store.Select "acme/server-a") = Some "driver: bad connection" ∧
  (run (server.AddRepo (codec := json) (sample_faults.selectDown readme_new)
          "acme" "server-a" "README.md" false) storedTable).1 = Ok tt ∧
  Store.manifest
    <$> table (run (server.AddRepo (codec := json)
                      (sample_faults.selectDown readme_new) "acme" "server-a"
                      "README.md" false) storedTable).2 !! "acme/server-a"
  = Some (Marshal_configs (JSON := json)
            [cfg "docker" false; cfg "npx" true]) ∧
  Marshal_configs (JSON := json) [cfg "docker" false; cfg "npx" true]
  ≠ Store.manifest storedRow ∧
  Store.proposed_manifest
    <$> table (run (server.AddRepo (codec := json)
                      (sample_faults.selectDown readme_new) "acme" "server-a"
                      "README.md" false) storedTable).2 !! "acme/server-a"
  = Some (Some "{}").
Proof.
  split; [reflexivity|]. split; [discriminate|]. split; [discriminate|].
  split; [reflexivity|]. split; [vm_compute; reflexivity|].
  split; [vm_compute; reflexivity|].
  split; [vm_compute; discriminate|vm_compute; reflexivity].
Qed.

(** C5, the code against the claim.  The table holds [acme/server-a], the
    README fetched is the stored one and [force] is [false].  The [SELECT]
    of [AddRepo] fails; the error is not looked at and the test for an
    unchanged README is skipped with it.  The language model is called,
    and [SaveRepo] writes the new manifest and the new metadata over those
    of the record. *)
Theorem unchanged_readme_rewritten_after_failed_select :
  storedTable !! "acme/server-a" = Some storedRow ∧
  github_GetContents (sample_faults.selectDown readme_old) "acme" "server-a"
    "README.md" = Ok (Store.readme_content storedRow) ∧
  db_error (sample_faults.selectDown readme_old)
    (Store.Select "acme/server-a") = Some "driver: bad connection" ∧
  (run (server.AddRepo (codec := json) (sample_faults.selectDown readme_old)
          "acme" "server-a" "README.md" false) storedTable).1 = Ok tt ∧
  EvOpenAI "acme/server-a" readme_old
    ∈ trace (run (server.AddRepo (codec := json)
                    (sample_faults.selectDown readme_old) "acme" "server-a"
                    "README.md" false) storedTable).2 ∧
  Store.manifest
    <$> table (run (server.AddRepo (codec := json)
                      (sample_faults.selectDown readme_old) "acme" "server-a"
                      "README.md" false) storedTable).2 !! "acme/server-a"
  = Some (Marshal_configs (JSON := json)
            [cfg "docker" false; cfg "npx" true]) ∧
  Store.metadata
    <$> table (run (server.AddRepo (codec := json)
                      (sample_faults.selectDown readme_old) "acme" "server-a"
                      "README.md" false) storedTable).2 !! "acme/server-a"
  = Some (Marshal_metadata (JSON := json) {["categories" := "Productivity"]}) ∧
  Marshal_configs (JSON := json) [cfg "docker" false; cfg "npx" true]
  ≠ Store.manifest storedRow ∧
  Marshal_metadata (JSON := json) {["categories" := "Productivity"]}
  ≠ Store.metadata storedRow.
Proof.
  split; [reflexivity|]. split; [reflexivity|]. split; [reflexivity|].
  split; [vm_compute; reflexivity|]. split; [vm_compute; event_here|].
  split; [vm_compute; reflexivity|]. split; [vm_compute; reflexivity|].
  split; vm_compute; discriminate.
Qed.

(** C2, the code against the claim.  The stored record of [acme/server-a]
    carries the categories [Productivity,Verified]; the language model
    answers the category [Productivity].  [UpdateRepo] adds [,Verified]
    only when the tag was absent, so the categories it stores are
    [Productivity]; [AddRepo] of [collect.go] never reads the stored
    metadata and stores the same.  In both the tag is gone. *)
Theorem Verified_tag_dropped_on_reanalysis :
  hasTag "Verified" "Productivity,Verified" = true ∧
  hasTag "Verified" "Productivity" = false ∧
  Unmarshal_metadata (JSON := json) (Metadata storedRepo)
    = Ok {["categories" := "Productivity,Verified"]} ∧
  utils.mergeCategories {["categories" := "Productivity,Verified"]}
    "Productivity" !! "categories" = Some "Productivity" ∧
  Store.metadata <$>
    table (run (utils.UpdateRepo (codec := json) envChanged storedRepo false
                  "acme/server-a" readme_new) storedTable).2
    !! "acme/server-a"
  = Some (Marshal_metadata (JSON := json) {["categories" := "Productivity"]}) ∧
  Store.metadata <$>
    table (run (server.AddRepo (codec := json) envChanged "acme" "server-a"
                  "README.md" false) storedTable).2
    !! "acme/server-a"
  = Some (Marshal_metadata (JSON := json) {["categories" := "Productivity"]}).
Proof. repeat split; vm_compute; reflexivity. Qed.

End Examples.

(** ** More on [MarkPreferred] *)

Section MarkPreferredMore.
Import types utils.
Implicit Types (p : MCPServerConfig → bool) (configs : list MCPServerConfig).

Lemma firstIndex_hit p i configs :
  firstIndex p i configs = (-1)%Z ∨
  ∃ n c, firstIndex p i configs = (i + Z.of_nat n)%Z ∧
         configs !! n = Some c ∧ p c = true.
Proof.
  revert i. induction configs as [|c rest IH]; intros i; simpl; [by left|].
  destruct (p c) eqn:Hc.
  - right. exists 0%nat, c. split; [lia|done].
  - destruct (IH (i + 1)%Z) as [Hnone|(n & d & Hn & Hd & Hp)]; [by left|].
    right. exists (S n), d. split; [lia|done].
Qed.

Lemma firstIndex_alter p i n configs :
  (∀ c, p (setPreferred c) = p c) →
  firstIndex p i (alter setPreferred n configs) = firstIndex p i configs.
Proof.
  intros Hp. revert i n. induction configs as [|c rest IH]; intros i [|n];
    simpl; try done.
  - by rewrite Hp.
  - destruct (p c); [done|]. apply IH.
Qed.

Lemma preferredIndex_alter n configs :
  preferredIndex (alter setPreferred n configs) = preferredIndex configs.
Proof.
  unfold preferredIndex. by rewrite !firstIndex_alter.
Qed.

(** The index [MarkPreferred] writes at, when there is one, holds a config
    launched by [npx], [uv], [uvx] or [docker]. *)
Lemma preferredIndex_launcher configs :
  preferredIndex configs = (-1)%Z ∨
  ∃ n c, preferredIndex configs = Z.of_nat n ∧ configs !! n = Some c ∧
         isNpx c || isUv c || isDocker c = true.
Proof.
  unfold preferredIndex. cbv zeta.
  destruct (firstIndex_hit isNpx 0 configs) as [Hnpx|(n & c & Hn & Hc & Hp)].
  - rewrite Hnpx, Z.eqb_refl.
    destruct (firstIndex_hit isUv 0 configs) as [Huv|(n & c & Hn & Hc & Hp)].
    + rewrite Huv, Z.eqb_refl.
      destruct (firstIndex_hit isDocker 0 configs)
        as [Hdocker|(n & c & Hn & Hc & Hp)]; [by left|].
      right. exists n, c. rewrite Hn, Hp, !orb_true_r. split; [lia|done].
    + right. exists n, c. rewrite Hn, not_minus_one, Hp, orb_true_r. simpl.
      split; [lia|done].
  - right. exists n, c. rewrite Hn, !not_minus_one, Hp. simpl. split; [lia|done].
Qed.

Lemma alter_setPreferred_twice n configs :
  alter setPreferred n (alter setPreferred n configs)
  = alter setPreferred n configs.
Proof.
  revert n. induction configs as [|c rest IH]; intros [|n]; try done.
  change (c :: alter setPreferred n (alter setPreferred n rest)
          = c :: alter setPreferred n rest).
  by rewrite IH.
Qed.

(** X1: marking twice is marking once: the second call finds the same index
    and writes the flag that is already there. *)
Theorem MarkPreferred_idempotent configs :
  MarkPreferred (MarkPreferred configs) = MarkPreferred configs.
Proof.
  destruct (preferredIndex_launcher configs) as [Hnone|(n & c & Hn & _)].
  - unfold MarkPreferred at 2 3. cbv zeta. rewrite Hnone. simpl.
    unfold MarkPreferred. cbv zeta. by rewrite Hnone.
  - rewrite (MarkPreferred_at n configs Hn).
    rewrite (MarkPreferred_at n (alter setPreferred n configs))
      by (by rewrite preferredIndex_alter).
    apply alter_setPreferred_twice.
Qed.


End MarkPreferredMore.

(** ** More on the deduplication *)

Section DedupMore.
Import server.
Implicit Types (seen : gmap string bool) (r : github.CodeResult)
  (acc rest : list github.CodeResult).

Lemma dedupLoop_distinct seen acc rest :
  (∀ k, default false (seen !! k) = true ↔ k ∈ keyOf <$> acc) →
  NoDup (keyOf <$> rest) →
  (∀ r, r ∈ rest → keyOf r ∉ (keyOf <$> acc)) →
  dedupLoop seen acc rest = (acc ++ rest)%list.
Proof.
  revert seen acc. induction rest as [|r rest IH]; intros seen acc Hseen Hnd Hnew.
  - simpl. by rewrite app_nil_r.
  - simpl. fold (keyOf r). rewrite fmap_cons in Hnd. apply NoDup_cons in Hnd as [Hr Hnd].
    destruct (default false (seen !! keyOf r)) eqn:Hk; simpl.
    + apply Hseen in Hk. destruct (Hnew r); [by left|done].
    + rewrite (IH (<[keyOf r := true]> seen) (acc ++ [r])%list).
      * by rewrite <- app_assoc.
      * intros k. rewrite fmap_app, elem_of_app. simpl.
        rewrite list_elem_of_singleton, <- Hseen.
        destruct (decide (keyOf r = k)) as [->|Hne].
        -- rewrite lookup_insert_eq. simpl. split; [by right|done].
        -- rewrite lookup_insert_ne by done.
           split; [by left|]. intros [?|?]; [done|congruence].
      * done.
      * intros r' Hr'. rewrite fmap_app, elem_of_app. simpl.
        rewrite list_elem_of_singleton. intros [Hacc|Heq].
        -- apply (Hnew r'); [by right|done].
        -- apply Hr. rewrite <- Heq. by apply list_elem_of_fmap_2.
Qed.

(** A list of results without two equal keys comes back as it is. *)
Lemma uniqueRepos_distinct (allRepos : list github.CodeResult) :
  NoDup (keyOf <$> allRepos) → uniqueRepos allRepos = allRepos.
Proof.
  intros Hnd. unfold uniqueRepos. rewrite dedupLoop_distinct; try done.
  - intros k. rewrite lookup_empty. simpl. rewrite elem_of_nil. naive_solver.
  - intros r _. simpl. apply not_elem_of_nil.
Qed.

(** X3: deduplicating a second time changes nothing. *)
Theorem uniqueRepos_idempotent (allRepos : list github.CodeResult) :
  uniqueRepos (uniqueRepos allRepos) = uniqueRepos allRepos.
Proof.
  apply uniqueRepos_distinct. unfold uniqueRepos.
  apply (dedupLoop_spec ∅ [] allRepos).
  - intros k. rewrite lookup_empty. simpl. rewrite elem_of_nil. naive_solver.
  - constructor.
Qed.

Lemma dedupLoop_first seen acc rest :
  (∀ k, default false (seen !! k) = true ↔ k ∈ keyOf <$> acc) →
  ∃ kept, dedupLoop seen acc rest = (acc ++ kept)%list ∧
    ∀ r, r ∈ kept →
      (keyOf r ∉ keyOf <$> acc) ∧
      ∃ before after, rest = (before ++ r :: after)%list ∧
                      keyOf r ∉ (keyOf <$> before).
Proof.
  revert seen acc. induction rest as [|r rest IH]; intros seen acc Hseen.
  - exists []. simpl. split; [by rewrite app_nil_r|]. intros r Hr.
    by apply elem_of_nil in Hr.
  - simpl. fold (keyOf r). destruct (default false (seen !! keyOf r)) eqn:Hk; simpl.
    + destruct (IH seen acc Hseen) as (kept & Hout & Hkept).
      exists kept. split; [done|]. intros r' Hr'.
      destruct (Hkept r' Hr') as (Hnew & before & after & -> & Hbefore).
      split; [done|]. exists (r :: before), after. split; [done|].
      rewrite fmap_cons, not_elem_of_cons. split; [|done].
      intros Heq. apply Hnew, Hseen. by rewrite Heq.
    + destruct (IH (<[keyOf r := true]> seen) (acc ++ [r])%list)
        as (kept & Hout & Hkept).
      * intros k. rewrite fmap_app, elem_of_app. simpl.
        rewrite list_elem_of_singleton, <- Hseen.
        destruct (decide (keyOf r = k)) as [->|Hne].
        -- rewrite lookup_insert_eq. simpl. split; [by right|done].
        -- rewrite lookup_insert_ne by done.
           split; [by left|]. intros [?|?]; [done|congruence].
      * exists (r :: kept). rewrite Hout, <- app_assoc. split; [done|].
        intros r' Hr'. apply elem_of_cons in Hr' as [->|Hr'].
        -- split.
           ++ intros Hin. apply Hseen in Hin. congruence.
           ++ exists [], rest. split; [done|]. apply not_elem_of_nil.
        -- destruct (Hkept r' Hr') as (Hnew & before & after & -> & Hbefore).
           rewrite fmap_app, not_elem_of_app in Hnew. destruct Hnew as [Hacc Hr].
           split; [done|]. exists (r :: before), after. split; [done|].
           rewrite fmap_cons, not_elem_of_cons. split; [|done].
           intros Heq. apply Hr. simpl. rewrite Heq. apply list_elem_of_here.
Qed.

(** X4: the candidate kept for a key is the first result with that key: no
    result before it in the input has the same key. *)
Theorem uniqueRepos_keeps_first (allRepos : list github.CodeResult)
    (r : github.CodeResult) :
  r ∈ uniqueRepos allRepos →
  ∃ before after, allRepos = (before ++ r :: after)%list ∧
                  keyOf r ∉ (keyOf <$> before).
Proof.
  intros Hr. unfold uniqueRepos in Hr.
  destruct (dedupLoop_first ∅ [] allRepos) as (kept & Hout & Hkept).
  { intros k. rewrite lookup_empty. simpl. rewrite elem_of_nil. naive_solver. }
  rewrite Hout in Hr. simpl in Hr. by destruct (Hkept r Hr).
Qed.

End DedupMore.

(** ** More on [SaveRepo] *)

Section SaveRepoMore.
Import types.
Context (env : Services).

(** X5: [SaveRepo] on a record the table does not hold, with a database that
    accepts the statements: the row is inserted with the values of [repo],
    empty metadata replaced by ["{}"]; [proposed_manifest] stays [NULL]
    and [repo.ProposedManifest] is not written, whatever [proposed] is. *)
Theorem SaveRepo_inserts_new (repo : RepoInfo) (proposed : bool)
    (t : gmap string Store.Row) :
  t !! FullName repo = None →
  dbAccepts env →
  ∃ w',
    run (utils.SaveRepo env repo proposed) t = (Ok tt, w') ∧
    table w' =
      <[FullName repo :=
          {| Store.url := URL repo; Store.description := Description repo;
             Store.display_name := DisplayName repo;
             Store.stars := Stars repo;
             Store.readme_content := ReadmeContent repo;
             Store.language := Language repo; Store.path := Path repo;
             Store.manifest := Manifest repo; Store.icon := Icon repo;
             Store.metadata := if String.eqb (Metadata repo) "" then "{}"
                               else Metadata repo;
             Store.tool_definitions := ToolDefinitions repo;
             Store.proposed_manifest := None |}]> t.
Proof.
  intros Hnew Hdb. unfold utils.SaveRepo. unfold_monad.
  rewrite !Hdb, Hnew. simpl.
  destruct (String.eqb (Metadata repo) ""); simpl; rewrite ?Hdb, Hnew;
    eexists; (split; [reflexivity|done]).
Qed.

(** What one call of [SaveRepo] can do to the table, from any world. *)
Lemma SaveRepo_effect (repo : RepoInfo) (proposed : bool)
    (t : gmap string Store.Row) (tr : list Event) (r : Result unit)
    (w' : World) :
  utils.SaveRepo env repo proposed {| table := t; trace := tr |} = (r, w') →
  (∀ k, k ≠ FullName repo → table w' !! k = t !! k) ∧
  (∀ e, r = Err e → table w' = t) ∧
  (∀ row, t !! FullName repo = Some row →
     ∃ row', table w' !! FullName repo = Some row' ∧
             (proposed = true → Store.manifest row' = Store.manifest row)) ∧
  (r = Ok tt → is_Some (table w' !! FullName repo)).
Proof.
  unfold utils.SaveRepo. unfold_monad. intros Hrun.
  repeat (case_match; simplify_eq/=).
  all: split; [intros k Hk; by rewrite ?lookup_alter_ne, ?lookup_insert_ne|].
  all: split; [by intros e [=]|].
  all: destruct proposed; simplify_eq/=.
  all: rewrite ?lookup_alter_eq, ?lookup_insert_eq;
       repeat match goal with
              | Hrow : _ !! _ = _ |- _ => rewrite Hrow
              end; simpl.
  all: split;
    [first [ by intros row [=]
           | intros row [=]; subst; eexists; split; [done|];
             first [done | by intros [=]] ]
    |try (by intros [=]); eauto].
Qed.

(** X6: in every outcome [SaveRepo] leaves the rows of other repositories as
    they are and removes none; when it returns an error, the table is the
    one it started from. *)
Theorem SaveRepo_touches_one_row (repo : RepoInfo) (proposed : bool)
    (t : gmap string Store.Row) (r : Result unit) (w' : World) :
  run (utils.SaveRepo env repo proposed) t = (r, w') →
  (∀ k, k ≠ FullName repo → table w' !! k = t !! k) ∧
  (∀ k, is_Some (t !! k) → is_Some (table w' !! k)) ∧
  (∀ e, r = Err e → table w' = t).
Proof.
  intros Hrun. destruct (SaveRepo_effect _ _ _ _ _ _ Hrun)
    as (Hframe & Herr & Hkeep & _).
  split; [done|]. split; [|done].
  intros k [row Hrow]. destruct (decide (k = FullName repo)) as [->|Hne].
  - destruct (Hkeep row Hrow) as (row' & -> & _). eauto.
  - rewrite Hframe by done. eauto.
Qed.

(** X7: with a database that accepts the statements, [SaveRepo] succeeds and
    the table holds the rows it held plus the one of [repo.FullName]: the
    count query keeps the [INSERT] away from a name that is present. *)
Theorem SaveRepo_upserts (repo : RepoInfo) (proposed : bool)
    (t : gmap string Store.Row) :
  dbAccepts env →
  ∃ w', run (utils.SaveRepo env repo proposed) t = (Ok tt, w') ∧
        dom (table w') = {[FullName repo]} ∪ dom t.
Proof.
  intros Hdb. unfold utils.SaveRepo. unfold_monad. rewrite !Hdb.
  destruct (t !! FullName repo) as [row|] eqn:Hrow; simpl.
  - assert (dom t = {[FullName repo]} ∪ dom t) as Hdom.
    { symmetry. apply subseteq_union_1_L, singleton_subseteq_l.
      by apply elem_of_dom_2 in Hrow. }
    destruct proposed; simpl; rewrite ?Hdb; eexists;
      (split; [reflexivity|]); simpl; by rewrite dom_alter_L.
  - destruct (String.eqb (Metadata repo) ""); simpl; rewrite ?Hdb, Hrow;
      eexists; (split; [reflexivity|]); simpl; by rewrite dom_insert_L.
Qed.

End SaveRepoMore.

(** ** More on [AddRepo] of [collect.go] *)

Section AddRepoMore.
Import types.
Context {codec : JSON} (env : Services).

(** A run of [AddRepo] either leaves the table as it is, or ends in the one
    call of [SaveRepo], made on the table as it was, for the derived name
    and with the flag decided from the stored manifest. *)
Lemma AddRepo_cases (owner repo path : string) (force : bool)
    (t : gmap string Store.Row) (tr : list Event) (r : Result unit)
    (w' : World) :
  server.AddRepo env owner repo path force {| table := t; trace := tr |}
    = (r, w') →
  table w' = t ∨
  ∃ g repoInfo tr0,
    github_Get env owner repo = Ok g ∧
    FullName repoInfo = derive.fullName g path ∧
    utils.SaveRepo env repoInfo
      (utils.decideProposed
         (Manifest (server.scanRepoFromDB
                      (selected env t (derive.fullName g path)))) force)
      {| table := t; trace := tr0 |} = (r, w').
Proof.
  unfold server.AddRepo, utils.AnalyzeWithOpenAI, utils.ScrapeToolDefinitions,
    selected.
  unfold_monad. intros Hrun.
  repeat (case_match; simplify_eq/=); try (by left).
  all: right; eexists _, _, _; (split; [reflexivity|]);
       (split;
          [|repeat match goal with
                   | Hsel : db_error _ _ = _ |- _ => rewrite Hsel
                   | Hrow : _ !! _ = _ |- _ => rewrite Hrow
                   end; simpl;
            repeat match goal with
                   | Hp : utils.decideProposed _ _ = _ |- _ => rewrite Hp
                   end; exact Hrun]);
       reflexivity.
Qed.


(** What one call of [AddRepo] can do to the table, from any world. *)
Lemma AddRepo_effect (owner repo path : string) (force : bool)
    (t : gmap string Store.Row) (tr : list Event) (r : Result unit)
    (w' : World) :
  server.AddRepo env owner repo path force {| table := t; trace := tr |}
    = (r, w') →
  (∀ k, (∀ g, github_Get env owner repo = Ok g → k ≠ derive.fullName g path) →
        table w' !! k = t !! k) ∧
  (∀ k, is_Some (t !! k) → is_Some (table w' !! k)) ∧
  (∀ e, r = Err e → table w' = t).
Proof.
  intros Hrun. destruct (AddRepo_cases _ _ _ _ _ _ _ _ Hrun)
    as [->|(g & repoInfo & tr0 & Hg & Hname & Hsave)]; [done|].
  destruct (SaveRepo_effect env _ _ _ _ _ _ Hsave)
    as (Hframe & Herr & Hkeep & _).
  split; [|split; [|done]].
  - intros k Hk. apply Hframe. rewrite Hname. by apply Hk.
  - intros k [row Hrow]. destruct (decide (k = FullName repoInfo)) as [->|Hne].
    + destruct (Hkeep row Hrow) as (row' & -> & _). eauto.
    + rewrite Hframe by done. eauto.
Qed.

(** X8: in every outcome [AddRepo] leaves the rows under other names than the
    derived one as they are and removes no row; when it returns an error,
    the table is the one it started from. *)
Theorem AddRepo_touches_one_row (owner repo path : string) (force : bool)
    (t : gmap string Store.Row) (r : Result unit) (w' : World) :
  run (server.AddRepo env owner repo path force) t = (r, w') →
  (∀ k, (∀ g, github_Get env owner repo = Ok g → k ≠ derive.fullName g path) →
        table w' !! k = t !! k) ∧
  (∀ k, is_Some (t !! k) → is_Some (table w' !! k)) ∧
  (∀ e, r = Err e → table w' = t).
Proof. apply AddRepo_effect. Qed.

Lemma keepsAccepted_refl (t : gmap string Store.Row) : keepsAccepted t t.
Proof. intros k row Hrow _ _. eauto. Qed.

Lemma keepsAccepted_trans (t1 t2 t3 : gmap string Store.Row) :
  keepsAccepted t1 t2 → keepsAccepted t2 t3 → keepsAccepted t1 t3.
Proof.
  intros H12 H23 k row Hrow Hne1 Hne2.
  destruct (H12 k row Hrow Hne1 Hne2) as (row2 & Hrow2 & Heq2).
  destruct (H23 k row2 Hrow2) as (row3 & Hrow3 & Heq3); [congruence..|].
  exists row3. split; [done|congruence].
Qed.

(** Without [force] and with a [SELECT] that works, one [AddRepo] keeps
    every accepted manifest of the table. *)
Lemma AddRepo_keepsAccepted (owner repo path : string)
    (t : gmap string Store.Row) (tr : list Event) (r : Result unit)
    (w' : World) :
  selectWorks env →
  server.AddRepo env owner repo path false {| table := t; trace := tr |}
    = (r, w') →
  keepsAccepted t (table w').
Proof.
  intros Hsel Hrun. destruct (AddRepo_cases _ _ _ _ _ _ _ _ Hrun)
    as [->|(g & repoInfo & tr0 & Hg & Hname & Hsave)];
    [apply keepsAccepted_refl|].
  destruct (SaveRepo_effect env _ _ _ _ _ _ Hsave) as (Hframe & _ & Hkeep & _).
  intros k row Hrow Hne1 Hne2.
  destruct (decide (k = FullName repoInfo)) as [->|Hne].
  - destruct (Hkeep row Hrow) as (row' & Hrow' & Hsame).
    exists row'. split; [done|]. apply Hsame.
    unfold selected. rewrite Hsel, <- Hname, Hrow. simpl.
    unfold utils.decideProposed.
    apply String.eqb_neq in Hne1, Hne2. by rewrite Hne1, Hne2.
  - exists row. by rewrite Hframe.
Qed.

(** [SaveRepo] calls GitHub for no repository. *)
Lemma SaveRepo_visits (repo : RepoInfo) (proposed : bool) (w w' : World)
    (r : Result unit) :
  utils.SaveRepo env repo proposed w = (r, w') →
  githubGets (trace w') = githubGets (trace w).
Proof.
  unfold utils.SaveRepo. unfold_monad. intros Hrun.
  repeat (case_match; simplify_eq/=).
  all: unfold githubGets; rewrite ?omap_app; simpl;
       rewrite ?app_nil_r; reflexivity.
Qed.

(** A run of [AddRepo] adds one call of [Repositories.Get] to the trace,
    for the owner and the repository it was given. *)
Lemma AddRepo_visits (owner repo path : string) (force : bool)
    (w w' : World) (r : Result unit) :
  server.AddRepo env owner repo path force w = (r, w') →
  githubGets (trace w') = (githubGets (trace w) ++ [(owner, repo)])%list.
Proof.
  unfold server.AddRepo, utils.AnalyzeWithOpenAI, utils.ScrapeToolDefinitions.
  unfold_monad. intros Hrun.
  repeat (case_match; simplify_eq/=).
  all: try match goal with
           | Hsave : utils.SaveRepo _ _ _ _ = _ |- _ =>
               apply SaveRepo_visits in Hsave; simpl in Hsave; simpl;
               rewrite Hsave
           end.
  all: unfold githubGets; simpl; rewrite ?omap_app; simpl;
       rewrite ?app_nil_r; reflexivity.
Qed.

End AddRepoMore.

(** ** The loops over the candidates *)

Section Loops.
Import types.
Context {codec : JSON} (env : Services)
  (search : string → server_crawl.SearchOutcome).

Lemma processRepos_effect (allRepos : list github.CodeResult)
    (force : bool) (t : gmap string Store.Row) (tr : list Event)
    (r : Result unit) (w' : World) :
  server_crawl.processRepos env allRepos force {| table := t; trace := tr |}
    = (r, w') →
  (∀ k, is_Some (t !! k) → is_Some (table w' !! k)) ∧
  (force = false → selectWorks env → keepsAccepted t (table w')).
Proof.
  revert t tr. induction allRepos as [|repo rest IH]; intros t tr; simpl.
  - intros [= <- <-]. simpl. split; [done|].
    intros _ _. apply keepsAccepted_refl.
  - destruct (server.AddRepo env _ _ _ force _) as [r1 [t1 tr1]] eqn:Hadd.
    intros Hrest. destruct (IH _ _ Hrest) as (Hsome & Hkeep).
    destruct (AddRepo_effect env _ _ _ _ _ _ _ _ Hadd) as (_ & Hsome1 & _).
    split.
    + intros k Hk. by apply Hsome, Hsome1.
    + intros -> Hsel. apply (keepsAccepted_trans _ t1); [|by apply Hkeep].
      by apply (AddRepo_keepsAccepted env _ _ _ _ _ _ _ Hsel Hadd).
Qed.

(** The loop starts [AddRepo] on every candidate, in the order of the
    list. *)
Lemma processRepos_visits (allRepos : list github.CodeResult) (force : bool)
    (w w' : World) (r : Result unit) :
  server_crawl.processRepos env allRepos force w = (r, w') →
  githubGets (trace w')
  = (githubGets (trace w)
     ++ ((λ repo, (github.OwnerLogin (github.Repo repo),
                   github.Name (github.Repo repo))) <$> allRepos))%list.
Proof.
  revert w. induction allRepos as [|repo rest IH]; intros w; simpl.
  - intros [= <- <-]. by rewrite app_nil_r.
  - destruct (server.AddRepo env _ _ _ force w) as [r1 w1] eqn:Hadd.
    intros Hrest. rewrite (IH _ Hrest), (AddRepo_visits env _ _ _ _ _ _ _ Hadd).
    by rewrite <- app_assoc.
Qed.

(** X9: in a run of the loop of [searchReposByReadme] over the candidates,
    [AddRepo] is started on every candidate, in the order of the list,
    also after a candidate that ended in an error: the calls of
    [Repositories.Get] in the trace are those of the candidates, in order.
    The loop removes no row; and without [force] and with a [SELECT] that
    works, as in the daily run, every accepted manifest of the table is
    still there after it. *)
Theorem processRepos_keeps_accepted (allRepos : list github.CodeResult)
    (force : bool) (t : gmap string Store.Row) (r : Result unit) (w' : World) :
  run (server_crawl.processRepos env allRepos force) t = (r, w') →
  githubGets (trace w')
  = ((λ repo, (github.OwnerLogin (github.Repo repo),
               github.Name (github.Repo repo))) <$> allRepos) ∧
  (∀ k, is_Some (t !! k) → is_Some (table w' !! k)) ∧
  (force = false → selectWorks env → keepsAccepted t (table w')).
Proof.
  intros Hrun. split; [|by apply (processRepos_effect _ _ _ _ _ _ Hrun)].
  by rewrite (processRepos_visits _ _ _ _ _ Hrun).
Qed.

Lemma addEach_effect (results : list github.CodeResult) (errs : list string)
    (t : gmap string Store.Row) (tr : list Event) (r : Result (list string))
    (w' : World) :
  routes.addEach env results errs {| table := t; trace := tr |} = (r, w') →
  (∀ k, is_Some (t !! k) → is_Some (table w' !! k)) ∧
  (selectWorks env → keepsAccepted t (table w')).
Proof.
  revert errs t tr. induction results as [|codeResult rest IH];
    intros errs t tr; simpl.
  - intros [= <- <-]. simpl. split; [done|]. intros _. apply keepsAccepted_refl.
  - destruct (server.AddRepo env _ _ _ false _) as [r1 [t1 tr1]] eqn:Hadd.
    intros Hrest.
    assert (∃ errs', routes.addEach env rest errs'
                       {| table := t1; trace := tr1 |} = (r, w'))
      as [errs' Hrest'] by (destruct r1; eauto).
    destruct (IH _ _ _ Hrest') as (Hsome & Hkeep).
    destruct (AddRepo_effect env _ _ _ _ _ _ _ _ Hadd) as (_ & Hsome1 & _).
    split.
    + intros k Hk. by apply Hsome, Hsome1.
    + intros Hsel. apply (keepsAccepted_trans _ t1); [|by apply Hkeep].
      by apply (AddRepo_keepsAccepted env _ _ _ _ _ _ _ Hsel Hadd).
Qed.

(** X10: [addRepoHandler] answers 401 without the right cookie, and 400 when the
    body does not decode or the name has fewer than three parts between
    slashes, so [owner/repo] alone is refused; in these cases it calls no
    service and leaves the table alone. *)
Theorem addRepoHandler_refuses (cookie : option string) (expected : string)
    (body : Result string) (t : gmap string Store.Row) :
  (routes.IsAuthorized cookie expected = false →
   run (routes.addRepoHandler env search cookie expected body) t
   = (Ok 401%Z, {| table := t; trace := [] |})) ∧
  (routes.IsAuthorized cookie expected = true →
   (∀ e, body = Err e →
      run (routes.addRepoHandler env search cookie expected body) t
      = (Ok 400%Z, {| table := t; trace := [] |})) ∧
   (∀ fullName, body = Ok fullName →
      (length (Strings.Split fullName "/") < 3)%nat →
      run (routes.addRepoHandler env search cookie expected body) t
      = (Ok 400%Z, {| table := t; trace := [] |}))).
Proof.
  unfold routes.addRepoHandler, run. split.
  - by intros ->.
  - intros ->. split.
    + by intros e ->.
    + intros fullName -> Hparts. apply Nat.ltb_lt in Hparts.
      simpl. by rewrite Hparts.
Qed.

(** The loop of the handler starts [AddRepo] on every code result, in
    order. *)
Lemma addEach_visits (results : list github.CodeResult) (errs : list string)
    (w w' : World) (r : Result (list string)) :
  routes.addEach env results errs w = (r, w') →
  githubGets (trace w')
  = (githubGets (trace w)
     ++ ((λ repo, (github.OwnerLogin (github.Repo repo),
                   github.Name (github.Repo repo))) <$> results))%list.
Proof.
  revert errs w. induction results as [|codeResult rest IH]; intros errs w;
    simpl.
  - intros [= <- <-]. by rewrite app_nil_r.
  - destruct (server.AddRepo env _ _ _ false w) as [r1 w1] eqn:Hadd.
    intros Hrest.
    assert (∃ errs', routes.addEach env rest errs' w1 = (r, w'))
      as [errs' Hrest'] by (destruct r1; eauto).
    rewrite (IH _ _ Hrest'), (AddRepo_visits env _ _ _ _ _ _ _ Hadd).
    by rewrite <- app_assoc.
Qed.

(** X11: [addRepoHandler] never forces.  On an authorized request whose
    name has three parts and whose search succeeds, it starts [AddRepo] on
    every code result, in order, also after one that ended in an error.
    Whatever the request, a run removes no row, and with a [SELECT] that
    works it keeps every accepted manifest of the table. *)
Theorem addRepoHandler_keeps_accepted (cookie : option string)
    (expected : string) (body : Result string) (t : gmap string Store.Row)
    (r : Result Z) (w' : World) :
  run (routes.addRepoHandler env search cookie expected body) t = (r, w') →
  (∀ fullName results,
     routes.IsAuthorized cookie expected = true →
     body = Ok fullName →
     (3 ≤ length (Strings.Split fullName "/"))%nat →
     search ("mcpServers filename:README.md repo:"
             ++ nth 1 (Strings.Split fullName "/") "" ++ "/"
             ++ nth 2 (Strings.Split fullName "/") "")
       = server_crawl.Found results →
     githubGets (trace w')
     = ((λ repo, (github.OwnerLogin (github.Repo repo),
                  github.Name (github.Repo repo))) <$> results)) ∧
  (∀ k, is_Some (t !! k) → is_Some (table w' !! k)) ∧
  (selectWorks env → keepsAccepted t (table w')).
Proof.
  intros Hrun. split.
  - intros fullName results Hauth -> Hparts Hsearch. revert Hrun.
    unfold routes.addRepoHandler, run. rewrite Hauth. simpl.
    apply Nat.ltb_ge in Hparts. rewrite Hparts, Hsearch. unfold bind.
    destruct (routes.addEach env results [] _) as [[errs|e] w1] eqn:Heach;
      apply addEach_visits in Heach; simpl in Heach.
    + by destruct (0 <? length errs)%nat; intros [= <- <-].
    + by intros [= <- <-].
  - revert Hrun. unfold routes.addRepoHandler, run.
    assert (∀ status, (Ok status, {| table := t; trace := [] |}) = (r, w') →
              (∀ k, is_Some (t !! k) → is_Some (table w' !! k)) ∧
              (selectWorks env → keepsAccepted t (table w'))) as Hsame.
    { intros status [= <- <-]. simpl. split; [done|].
      intros _. apply keepsAccepted_refl. }
    destruct (negb _); [apply Hsame|].
    destruct body as [fullName|e]; [|apply Hsame].
    destruct (_ <? 3)%nat; [apply Hsame|].
    destruct (search _) as [results| |e]; [|apply Hsame..].
    unfold bind.
    destruct (routes.addEach env results [] _) as [[errs|e] w1] eqn:Heach;
      destruct (addEach_effect _ _ _ _ _ _ Heach) as (Hsome & Hkeep).
    + by destruct (0 <? length errs)%nat; intros [= <- <-].
    + by intros [= <- <-].
Qed.


End Loops.

(** ** Early ends of [AddRepo] and [UpdateRepo] *)

Section EarlyEnds.
Import types.
Context {codec : JSON} (env : Services).

(** X12: when GitHub fails on the repository or on the README, [AddRepo] returns
    that error as it is, having called neither the database nor the
    language model. *)
Theorem AddRepo_github_failure (owner repo path : string) (force : bool)
    (t : gmap string Store.Row) :
  (∀ e, github_Get env owner repo = Err e →
     run (server.AddRepo env owner repo path force) t
     = (Err e, {| table := t; trace := [EvGithubGet owner repo] |})) ∧
  (∀ g e, github_Get env owner repo = Ok g →
     github_GetContents env (github.OwnerLogin g) (github.Name g) path = Err e →
     run (server.AddRepo env owner repo path force) t
     = (Err e, {| table := t;
                  trace := [EvGithubGet owner repo;
                            EvGithubGetContents (github.OwnerLogin g)
                              (github.Name g) path] |})).
Proof.
  split.
  - intros e He. unfold server.AddRepo. unfold_monad. by rewrite He.
  - intros g e Hg He. unfold server.AddRepo. unfold_monad. by rewrite Hg, He.
Qed.

(** X13: when the language model answers and its answer decodes to a manifest
    without configs, [UpdateRepo] and [AddRepo] return "no MCP server
    found" and persist nothing: [SaveRepo] and the backfill are not
    reached. *)
Theorem no_configs_nothing_saved (fullName readme content : string)
    (rest : list string) (m : MCPServerManifest) :
  openai_Chat env fullName readme = Ok (content :: rest) →
  Unmarshal_manifest content = (m, None) →
  Configs m = [] →
  (∀ repo force t,
     run (utils.UpdateRepo env repo force fullName readme) t
     = (Err (noManifestFound fullName),
        {| table := t; trace := [EvOpenAI fullName readme] |})) ∧
  (∀ owner repo path force t g,
     github_Get env owner repo = Ok g →
     github_GetContents env (github.OwnerLogin g) (github.Name g) path
       = Ok readme →
     derive.fullName g path = fullName →
     derive.noLaunchKeyword readme = false →
     (force = true ∨
      ∀ row, t !! fullName = Some row → Store.readme_content row ≠ readme) →
     ∃ w', run (server.AddRepo env owner repo path force) t
           = (Err (noManifestFound fullName), w') ∧
           table w' = t ∧
           Forall (λ e, isSaveEvent e = false) (trace w') ∧
           Forall (λ e, ∀ name ok, e ≠ EvScrape name ok) (trace w')).
Proof.
  intros Hchat Hdec Hnone. split.
  - intros repo force t. unfold utils.UpdateRepo, utils.AnalyzeWithOpenAI.
    unfold_monad. by rewrite Hchat, Hdec, Hnone.
  - intros owner repo path force t g Hg Hc Hname Hkw Hchanged.
    unfold server.AddRepo, utils.AnalyzeWithOpenAI. unfold_monad.
    rewrite Hg, Hc, Hkw, Hname.
    destruct (db_error env _); simpl.
    + rewrite Hchat, Hdec, Hnone. simpl. eexists. split; [reflexivity|].
      simpl. split; [done|]. split; repeat constructor; done.
    + destruct (t !! fullName) as [row|] eqn:Hrow; simpl.
      * destruct (String.eqb _ _ && negb force) eqn:Hskip.
        { apply andb_prop in Hskip as [Hsame Hnf].
          apply String.eqb_eq in Hsame.
          destruct Hchanged as [->|Hdiff]; [done|by destruct (Hdiff row)]. }
        rewrite Hchat, Hdec, Hnone. simpl. eexists. split; [reflexivity|].
        simpl. split; [done|]. split; repeat constructor; done.
      * rewrite Hchat, Hdec, Hnone. simpl. eexists. split; [reflexivity|].
        simpl. split; [done|]. split; repeat constructor; done.
Qed.

End EarlyEnds.

(** ** What a successful analysis stores *)

Section Stored.
Import types.
Context {codec : JSON} (env : Services).

(** X14: with [force], on a new candidate, or on a record whose README changed
    and whose manifest is empty or ["{}"], a successful run of [AddRepo]
    writes the analysis into [manifest] itself: the row holds the encoded
    configs after preferred selection, the metadata with the category of
    the language model alone, its description and name and the README;
    [proposed_manifest] is reset to ["{}"] on an existing record and left
    [NULL] on a new one.  The encoder of the metadata, as [json.Marshal],
    never gives the empty text. *)
Theorem AddRepo_writes_manifest_directly (owner repo path : string)
    (force : bool) (t : gmap string Store.Row) (g : github.Repository)
    (readme content : string) (rest : list string) (m : MCPServerManifest)
    (w' : World) :
  github_Get env owner repo = Ok g →
  github_GetContents env (github.OwnerLogin g) (github.Name g) path
    = Ok readme →
  selectWorks env →
  openai_Chat env (derive.fullName g path) readme = Ok (content :: rest) →
  Unmarshal_manifest content = (m, None) →
  (∀ metadata, Marshal_metadata metadata ≠ "") →
  (force = true ∨ t !! derive.fullName g path = None ∨
   ∃ row, t !! derive.fullName g path = Some row ∧
          Store.readme_content row ≠ readme ∧
          (Store.manifest row = "" ∨ Store.manifest row = "{}")) →
  run (server.AddRepo env owner repo path force) t = (Ok tt, w') →
  ∃ row',
    table w' !! derive.fullName g path = Some row' ∧
    Store.manifest row' = Marshal_configs (utils.MarkPreferred (Configs m)) ∧
    Store.metadata row'
      = Marshal_metadata (<["categories" := Category m]> ∅) ∧
    Store.description row' = mf_Description m ∧
    Store.display_name row' = Name m ∧
    Store.readme_content row' = readme ∧
    Store.proposed_manifest row'
      = (if t !! derive.fullName g path is Some _ then Some "{}" else None).
Proof.
  intros Hg Hc Hsel Hchat Hdec Hjson Hdirect.
  unfold_flow. rewrite Hg, Hc, Hsel.
  destruct (derive.noLaunchKeyword readme); [done|].
  assert (match t !! derive.fullName g path with
          | Some row => (String.eqb (Store.readme_content row) readme
                         && negb force = false) ∧
                        utils.decideProposed (Store.manifest row) force = false
          | None => True
          end) as Hcase.
  { destruct (t !! derive.fullName g path) as [row|] eqn:Hrow; [|done].
    unfold utils.decideProposed.
    destruct Hdirect as [->|[?|(row0 & [= <-] & Hdiff & Hempty)]];
      [by rewrite andb_false_r, orb_true_r|done|].
    apply String.eqb_neq in Hdiff. rewrite Hdiff. split; [done|].
    by destruct Hempty as [->| ->]. }
  clear Hdirect.
  destruct (t !! derive.fullName g path) as [row|] eqn:Hrow; simpl.
  - destruct Hcase as [-> Hprop]. rewrite Hchat, Hdec, Hprop. simpl.
    intros Hrun.
    repeat (case_match; simplify_eq/=);
      rewrite lookup_alter_eq, Hrow; simpl; eexists; (split; [reflexivity|]);
      done.
  - rewrite Hchat, Hdec. simpl. intros Hrun.
    repeat (case_match; simplify_eq/=);
      try match goal with
          | Hempty : (Marshal_metadata _ =? "") = true |- _ =>
              apply String.eqb_eq in Hempty; by apply Hjson in Hempty
          end;
      rewrite lookup_insert_eq; eexists; (split; [reflexivity|]); done.
Qed.

End Stored.

(** ** Metadata and tool definitions across a re-analysis *)

Section Reanalysis.
Import types.
Context {codec : JSON} (env : Services).

(** [mergeCategories] writes the [categories] entry and leaves every other
    entry of the metadata as it was. *)
Lemma mergeCategories_other (metadata : gmap string string)
    (category k : string) :
  k ≠ "categories" →
  utils.mergeCategories metadata category !! k = metadata !! k.
Proof.
  intros Hk. unfold utils.mergeCategories. cbv zeta.
  by rewrite lookup_insert_ne.
Qed.

(** X15: when the language model answers with a manifest that decodes and
    has at least one config, and the metadata of the record is not empty
    and does not decode, [UpdateRepo] returns the error of the decoder
    after the call to the language model and persists nothing. *)
Theorem UpdateRepo_metadata_decode_failure (repo : RepoInfo) (force : bool)
    (fullName readme content : string) (rest : list string)
    (m : MCPServerManifest) (e : string) (t : gmap string Store.Row) :
  openai_Chat env fullName readme = Ok (content :: rest) →
  Unmarshal_manifest content = (m, None) →
  Configs m ≠ [] →
  Metadata repo ≠ "" →
  Unmarshal_metadata (Metadata repo) = Err e →
  run (utils.UpdateRepo env repo force fullName readme) t
  = (Err ("error unmarshalling metadata for repository " ++ fullName
          ++ ": " ++ e),
     {| table := t; trace := [EvOpenAI fullName readme] |}).
Proof.
  intros Hchat Hdec Hcfg Hmeta Herr.
  unfold utils.UpdateRepo, utils.AnalyzeWithOpenAI. unfold_monad.
  rewrite Hchat, Hdec.
  destruct (Configs m) as [|c cs] eqn:Hconfigs; [done|]. simpl.
  apply String.eqb_neq in Hmeta.
  destruct (utils.decideProposed _ _); simpl; by rewrite Hmeta, Herr.
Qed.

(** [UpdateRepo] from any world: what a successful run stores as
    metadata, description and name. *)
Lemma UpdateRepo_metadata_effect (repo : RepoInfo) (force : bool)
    (fullName readme content : string) (rest : list string)
    (m : MCPServerManifest) (metadata : gmap string string) (w w' : World) :
  openai_Chat env fullName readme = Ok (content :: rest) →
  Unmarshal_manifest content = (m, None) →
  Metadata repo ≠ "" →
  Unmarshal_metadata (Metadata repo) = Ok metadata →
  (∀ md, Marshal_metadata md ≠ "") →
  utils.UpdateRepo env repo force fullName readme w = (Ok tt, w') →
  ∃ row',
    table w' !! FullName repo = Some row' ∧
    Store.metadata row'
      = Marshal_metadata (utils.mergeCategories metadata (Category m)) ∧
    Store.description row' = mf_Description m ∧
    Store.display_name row' = Name m.
Proof.
  intros Hchat Hdec Hmeta Hmd Hjson.
  apply String.eqb_neq in Hmeta.
  unfold_flow. rewrite Hchat, Hdec. simpl. intros Hrun.
  repeat (case_match; simplify_eq/=; rewrite ?Hmeta, ?Hmd in *; simplify_eq/=);
    try match goal with
        | Hempty : (Marshal_metadata _ =? "") = true |- _ =>
            apply String.eqb_eq in Hempty; by apply Hjson in Hempty
        end;
    rewrite ?lookup_insert_eq, ?lookup_alter_eq;
    try match goal with
        | Hrow : _ !! _ = Some _ |- _ => rewrite Hrow
        end;
    simpl; eexists; (split; [reflexivity|]); done.
Qed.

(** X16: a successful [UpdateRepo] on a record whose metadata decodes stores
    the metadata it decoded with the [categories] entry rewritten: every
    other entry is kept.  It also stores the description and the name of
    the analysis. *)
Theorem UpdateRepo_keeps_other_metadata (repo : RepoInfo) (force : bool)
    (fullName readme content : string) (rest : list string)
    (m : MCPServerManifest) (metadata : gmap string string)
    (t : gmap string Store.Row) (w' : World) :
  openai_Chat env fullName readme = Ok (content :: rest) →
  Unmarshal_manifest content = (m, None) →
  Metadata repo ≠ "" →
  Unmarshal_metadata (Metadata repo) = Ok metadata →
  (∀ md, Marshal_metadata md ≠ "") →
  run (utils.UpdateRepo env repo force fullName readme) t = (Ok tt, w') →
  ∃ row',
    table w' !! FullName repo = Some row' ∧
    Store.metadata row'
      = Marshal_metadata (utils.mergeCategories metadata (Category m)) ∧
    (∀ k, k ≠ "categories" →
       utils.mergeCategories metadata (Category m) !! k = metadata !! k) ∧
    Store.description row' = mf_Description m ∧
    Store.display_name row' = Name m.
Proof.
  intros Hchat Hdec Hmeta Hmd Hjson Hrun.
  destruct (UpdateRepo_metadata_effect repo force fullName readme content rest
              m metadata _ w' Hchat Hdec Hmeta Hmd Hjson Hrun)
    as (row' & Hrow & Hstored & Hdesc & Hname).
  exists row'. split; [done|]. split; [done|]. split; [|done].
  intros k Hk. by apply mergeCategories_other.
Qed.

(** X17: without [force], [UpdateRepo] on a record that has tool definitions
    never starts the backfill, whatever the language model answers, and a
    successful run stores the tool definitions it was given. *)
Theorem UpdateRepo_keeps_tool_definitions (repo : RepoInfo)
    (fullName readme : string) (t : gmap string Store.Row)
    (r : Result unit) (w' : World) :
  ToolDefinitions repo ≠ "" →
  ToolDefinitions repo ≠ "{}" →
  run (utils.UpdateRepo env repo false fullName readme) t = (r, w') →
  Forall (λ e, ∀ name ok, e ≠ EvScrape name ok) (trace w') ∧
  (r = Ok tt →
   ∃ row', table w' !! FullName repo = Some row' ∧
           Store.tool_definitions row' = ToolDefinitions repo).
Proof.
  intros Hne1 Hne2. apply String.eqb_neq in Hne1, Hne2.
  unfold_flow. intros Hrun.
  repeat (case_match; simplify_eq/=; rewrite ?Hne1, ?Hne2 in *; simplify_eq/=).
  all: split; [repeat constructor; done|].
  all: intros Hok; simplify_eq/=;
       rewrite ?lookup_insert_eq, ?lookup_alter_eq;
       try match goal with
           | Hrow : _ !! _ = Some _ |- _ => rewrite Hrow
           end;
       simpl; eexists; (split; [reflexivity|]); done.
Qed.

(** X18: [AddRepo] of [collect.go] builds the record from GitHub and never
    reads the stored tool definitions into it: without [force], on a
    record that has tool definitions and whose README changed, no backfill
    starts and a successful run stores the placeholder ["{}"] as tool
    definitions. *)
Theorem AddRepo_resets_tool_definitions (owner repo path : string)
    (t : gmap string Store.Row) (g : github.Repository) (row : Store.Row)
    (readme : string) (r : Result unit) (w' : World) :
  github_Get env owner repo = Ok g →
  github_GetContents env (github.OwnerLogin g) (github.Name g) path
    = Ok readme →
  selectWorks env →
  t !! derive.fullName g path = Some row →
  Store.readme_content row ≠ readme →
  Store.tool_definitions row ≠ "" →
  Store.tool_definitions row ≠ "{}" →
  run (server.AddRepo env owner repo path false) t = (r, w') →
  Forall (λ e, ∀ name ok, e ≠ EvScrape name ok) (trace w') ∧
  (r = Ok tt →
   ∃ row', table w' !! derive.fullName g path = Some row' ∧
           Store.tool_definitions row' = "{}").
Proof.
  intros Hg Hc Hsel Hrow Hdiff Hne1 Hne2.
  apply String.eqb_neq in Hdiff, Hne1, Hne2.
  unfold_flow. rewrite Hg, Hc, Hsel.
  destruct (derive.noLaunchKeyword readme).
  { intros [= <- <-]. split; [repeat constructor; done|done]. }
  rewrite Hrow. simpl. rewrite Hdiff, Hne1, Hne2. simpl. intros Hrun.
  repeat (case_match; simplify_eq/=).
  all: split; [repeat constructor; done|].
  all: intros Hok; simplify_eq/=;
       rewrite ?lookup_alter_eq, ?Hrow; simpl; eexists;
       (split; [reflexivity|]); done.
Qed.

End Reanalysis.

(** ** The names [AddRepo] derives from the path *)

Section DerivedNames.

Lemma Split_nonempty (s : string) (sep : ascii) : Strings.Split s sep ≠ [].
Proof.
  destruct s as [|c s]; simpl; [done|].
  destruct (Ascii.eqb c sep); [done|]. by destruct (Strings.Split s sep).
Qed.

Lemma Split_without_sep (s : string) (sep : ascii) :
  Strings.Contains s (String sep EmptyString) = false →
  Strings.Split s sep = [s].
Proof.
  induction s as [|c s IH]; simpl; [done|].
  intros Hno. apply orb_false_elim in Hno as [Hhead Htail].
  destruct (Ascii.eqb_spec c sep) as [->|Hne].
  - destruct (Ascii.ascii_dec sep sep); [|done]. by destruct s.
  - by rewrite IH.
Qed.

Lemma Split_app (a b : string) (sep : ascii) :
  Strings.Split (a ++ String sep b) sep
  = (Strings.Split a sep ++ Strings.Split b sep)%list.
Proof.
  induction a as [|c a IH].
  - rewrite append_nil. simpl. by rewrite Ascii.eqb_refl.
  - rewrite append_cons. simpl. destruct (Ascii.eqb c sep).
    + by rewrite IH.
    + rewrite IH. pose proof (Split_nonempty a sep).
      by destruct (Strings.Split a sep).
Qed.

Lemma Join_cons_char (c : ascii) (p : string) (ps : list string)
    (sep : string) :
  Strings.Join (String c p :: ps) sep = String c (Strings.Join (p :: ps) sep).
Proof. destruct ps; simpl; [done|]. by rewrite append_cons. Qed.

(** Joining the parts of a string with the separator gives the string
    back. *)
Lemma Join_Split (s : string) (sep : ascii) :
  Strings.Join (Strings.Split s sep) (String sep EmptyString) = s.
Proof.
  induction s as [|c s IH]; simpl; [done|].
  destruct (Ascii.eqb_spec c sep) as [->|Hne].
  - pose proof (Split_nonempty s sep).
    destruct (Strings.Split s sep) as [|p ps] eqn:Hsplit; [done|].
    change (Strings.Join ("" :: p :: ps) (String sep ""))
      with ("" ++ String sep "" ++ Strings.Join (p :: ps) (String sep "")).
    rewrite IH. by rewrite append_nil, append_cons, append_nil.
  - pose proof (Split_nonempty s sep).
    destruct (Strings.Split s sep) as [|p ps] eqn:Hsplit; [done|].
    by rewrite Join_cons_char, IH.
Qed.

Lemma dirOf_nested (dir file : string) :
  Strings.Contains file "/" = false →
  (1 <? length (Strings.Split (dir ++ "/" ++ file) "/"))%nat = true ∧
  derive.dirOf (Strings.Split (dir ++ "/" ++ file) "/") = dir.
Proof.
  intros Hfile. change ("/" ++ file) with (String "/" file).
  rewrite Split_app, (Split_without_sep file) by done.
  pose proof (Split_nonempty dir "/").
  split.
  - rewrite length_app. simpl. apply Nat.ltb_lt.
    destruct (Strings.Split dir "/"); [done|simpl; lia].
  - unfold derive.dirOf. rewrite length_app. simpl.
    replace (length (Strings.Split dir "/") + 1 - 1)%nat
      with (length (Strings.Split dir "/")) by lia.
    rewrite take_app_length. apply Join_Split.
Qed.

Lemma append_cancel (s a b : string) : s ++ a = s ++ b → a = b.
Proof.
  induction s as [|c s IH]; [done|].
  rewrite !append_cons. intros [= Heq]. by apply IH.
Qed.

(** X19: a README at the top of the repository is tracked under the
    repository's own name and URL.  A README in a directory is tracked
    under the name followed by the directory, and its URL is the tree link
    of that directory on the default branch; so two READMEs of one
    repository in different directories get different names. *)
Theorem derived_names (g : github.Repository) (file : string) :
  Strings.Contains file "/" = false →
  derive.fullName g file = github.FullName g ∧
  derive.repoURL g file = github.HTMLURL g ∧
  (∀ dir,
     derive.fullName g (dir ++ "/" ++ file)
       = github.FullName g ++ "/" ++ dir ∧
     derive.repoURL g (dir ++ "/" ++ file)
       = github.HTMLURL g ++ "/tree/" ++ github.DefaultBranch g ++ "/" ++ dir) ∧
  (∀ dir1 dir2,
     derive.fullName g (dir1 ++ "/" ++ file)
       = derive.fullName g (dir2 ++ "/" ++ file) →
     dir1 = dir2).
Proof.
  intros Hfile.
  assert (∀ dir,
     derive.fullName g (dir ++ "/" ++ file)
       = github.FullName g ++ "/" ++ dir ∧
     derive.repoURL g (dir ++ "/" ++ file)
       = github.HTMLURL g ++ "/tree/" ++ github.DefaultBranch g ++ "/" ++ dir)
    as Hnested.
  { intros dir. unfold derive.fullName, derive.repoURL. cbv zeta.
    destruct (dirOf_nested dir file Hfile) as [-> ->]. done. }
  unfold derive.fullName at 1, derive.repoURL at 1. cbv zeta.
  rewrite (Split_without_sep file) by done. simpl.
  split; [done|]. split; [done|]. split; [done|].
  intros dir1 dir2.
  rewrite (proj1 (Hnested dir1)), (proj1 (Hnested dir2)).
  intros Heq. apply append_cancel in Heq. by apply append_cancel in Heq.
Qed.

End DerivedNames.

(** ** The batches of [searchReposByReadme] *)

Section Batches.
Import server_crawl.
Context (search : nat → string → SearchOutcome) (limit : Z)
  (repoLinks : list string).

Lemma slice_step (i : nat) :
  (i < length repoLinks)%nat →
  let end_ := if (length repoLinks <? i + batchSize)%nat
              then length repoLinks else (i + batchSize)%nat in
  (take i repoLinks ++ slice i end_ repoLinks)%list
    = take (i + batchSize) repoLinks ∧
  (0 < length (slice i end_ repoLinks) ≤ batchSize)%nat.
Proof.
  intros Hi. cbv zeta. unfold slice, batchSize.
  destruct (Nat.ltb_spec (length repoLinks) (i + 15)) as [Hlt|Hge].
  - split.
    + rewrite take_take_drop.
      replace (i + (length repoLinks - i))%nat with (length repoLinks) by lia.
      by rewrite !take_ge by lia.
    + rewrite length_take, length_drop. lia.
  - split.
    + rewrite take_take_drop. f_equal. lia.
    + rewrite length_take, length_drop. lia.
Qed.

Lemma batchLoop_spec (fuel i : nat) (allRepos : list github.CodeResult)
    (batches : list (list string)) :
  (length repoLinks - i ≤ fuel)%nat →
  concat batches = take i repoLinks →
  allRepos = concat (imap (resultsOf search) batches) →
  Forall (λ batch, (0 < length batch ≤ batchSize)%nat) batches →
  ∀ out, batchLoop search limit repoLinks fuel i allRepos batches = out →
  (∃ j, concat out.2 = take j repoLinks) ∧
  out.1 = concat (imap (resultsOf search) out.2) ∧
  Forall (λ batch, (0 < length batch ≤ batchSize)%nat) out.2 ∧
  ((Z.of_nat (length out.1) < limit)%Z → concat out.2 = repoLinks).
Proof.
  revert i allRepos batches.
  induction fuel as [|fuel IH]; intros i allRepos batches Hfuel Hcat Hres Hall out.
  - simpl. intros <-. simpl. split; [eauto|]. split; [done|]. split; [done|].
    intros _. rewrite Hcat. apply take_ge. lia.
  - simpl. destruct (Nat.ltb_spec i (length repoLinks)) as [Hi|Hi].
    + destruct (slice_step i Hi) as [Hstep Hlen]. cbv zeta in Hstep, Hlen.
      set (batch := slice i _ repoLinks) in *.
      assert (concat (batches ++ [batch]) = take (i + batchSize) repoLinks)
        as Hcat'.
      { rewrite concat_app. simpl. by rewrite app_nil_r, Hcat. }
      assert (Forall (λ batch, (0 < length batch ≤ batchSize)%nat)
                (batches ++ [batch])) as Hall'.
      { apply Forall_app. split; [done|]. by constructor. }
      assert (∀ results, resultsOf search (length batches) batch = results →
                (allRepos ++ results)%list
                = concat (imap (resultsOf search) (batches ++ [batch])%list))
        as Hres'.
      { intros results <-. rewrite imap_app, concat_app. simpl.
        by rewrite app_nil_r, Nat.add_0_r, Hres. }
      unfold batchSize in Hfuel |- *.
      unfold resultsOf in Hres' at 1.
      destruct (search (length batches) (batchQuery batch)) as [results| |e].
      * destruct (Z.leb_spec limit (Z.of_nat (length (allRepos ++ results))))
          as [Hstop|Hgo].
        -- intros <-. simpl. split; [eauto|]. split; [by apply Hres'|].
           split; [done|]. intros Hless. lia.
        -- apply IH; try done; [lia|by apply Hres'].
      * apply IH; try done; [lia|]. rewrite <- (app_nil_r allRepos).
        by apply Hres'.
      * apply IH; try done; [lia|]. rewrite <- (app_nil_r allRepos).
        by apply Hres'.
    + intros <-. simpl. split; [eauto|]. split; [done|]. split; [done|].
      intros _. rewrite Hcat. apply take_ge. lia.
Qed.

(** X20: the batch phase queries the links in order, in batches of one to
    fifteen links, each link at most once; what it collects is what the
    successful searches returned, a rate-limited or failed batch giving
    nothing and not being tried again; and unless the limit was reached,
    every link was queried. *)
Theorem searchBatches_partition :
  (∃ j, concat (searchBatches search limit repoLinks).2 = take j repoLinks) ∧
  (searchBatches search limit repoLinks).1
    = concat (imap (resultsOf search)
                (searchBatches search limit repoLinks).2) ∧
  Forall (λ batch, (0 < length batch ≤ batchSize)%nat)
    (searchBatches search limit repoLinks).2 ∧
  ((Z.of_nat (length (searchBatches search limit repoLinks).1) < limit)%Z →
   concat (searchBatches search limit repoLinks).2 = repoLinks).
Proof.
  apply (batchLoop_spec (length repoLinks) 0 [] []); try done. lia.
Qed.

(** X21: the loop ends by its own test or by the limit, not by the bound on its
    iterations: with any larger bound it gives the same. *)
Theorem searchBatches_enough_fuel (fuel : nat) :
  (length repoLinks ≤ fuel)%nat →
  batchLoop search limit repoLinks fuel 0 [] []
  = searchBatches search limit repoLinks.
Proof.
  unfold searchBatches.
  assert (∀ fuel1 fuel2 i allRepos batches,
            (length repoLinks - i ≤ fuel1)%nat →
            (length repoLinks - i ≤ fuel2)%nat →
            batchLoop search limit repoLinks fuel1 i allRepos batches
            = batchLoop search limit repoLinks fuel2 i allRepos batches)
    as Hsame.
  { induction fuel1 as [|fuel1 IH]; intros [|fuel2] i allRepos batches H1 H2;
      simpl; try done.
    - destruct (Nat.ltb_spec i (length repoLinks)); [lia|done].
    - destruct (Nat.ltb_spec i (length repoLinks)); [lia|done].
    - destruct (Nat.ltb_spec i (length repoLinks)); [|done].
      unfold batchSize in *.
      destruct (search _ _); [destruct (_ <=? _)%Z; [done|]| |];
        apply IH; lia. }
  intros Hfuel. apply Hsame; lia.
Qed.

End Batches.

(** ** The later [AddRepo] *)

Section LaterAddRepo.
Import types.
Context {codec : JSON} (env : Services).

(** X22: the later [AddRepo] drops the error of the icon update: on an
    unchanged README without [force], with an empty stored icon and a
    database that rejects the update, it returns no error and the table is
    as it was. *)
Theorem later_AddRepo_drops_icon_error (owner repo path : string)
    (t : gmap string Store.Row) (g : github.Repository) (row : Store.Row)
    (e : string) :
  github_Get env owner repo = Ok g →
  github_GetContents env (github.OwnerLogin g) (github.Name g) path
    = Ok (Store.readme_content row) →
  derive.noLaunchKeyword (Store.readme_content row) = false →
  db_error env (Store.Select (derive.fullName g path)) = None →
  t !! derive.fullName g path = Some row →
  Store.icon row = "" →
  db_error env (Store.Exec (Store.UpdateIcon (github.OwnerAvatarURL g)
                              (derive.fullName g path))) = Some e →
  run (server_refactored.AddRepo env owner repo path false) t
  = (Ok tt,
     {| table := t;
        trace := [EvGithubGet owner repo;
                  EvGithubGetContents (github.OwnerLogin g) (github.Name g)
                    path;
                  EvDb (Store.Select (derive.fullName g path));
                  EvDb (Store.Exec
                          (Store.UpdateIcon (github.OwnerAvatarURL g)
                             (derive.fullName g path)))] |}).
Proof.
  intros Hg Hc Hkey Hsel Hrow Hicon Hexec.
  unfold server_refactored.AddRepo. unfold_monad.
  rewrite Hg, Hc, Hkey, Hsel, Hrow. simpl.
  rewrite String.eqb_refl, Hicon. simpl. by rewrite Hexec.
Qed.

End LaterAddRepo.

(** ** The further theorems on the sample repository *)

Section MoreExamples.
Import types sample sample_more.

(** A run that returns [Ok] is the pair of [Ok] and its final world. *)
Lemma run_ok {A} (m : M A) (t : gmap string Store.Row) (a : A) :
  (run m t).1 = Ok a → run m t = (Ok a, (run m t).2).
Proof. destruct (run m t) as [r w]. simpl. by intros ->. Defined.

(** Every [SELECT] of the sample services works. *)
Lemma sample_selects readme chat tools :
  selectWorks (services readme chat tools).
Proof. intros c. reflexivity. Defined.

(** The metadata encoder of the sample codec never gives the empty text. *)
Lemma sample_metadata_nonempty (metadata : gmap string string) :
  Marshal_metadata (JSON := json) metadata ≠ "".
Proof.
  simpl. unfold renderMetadata. rewrite append_cons. discriminate.
Defined.

(** [uniqueRepos_keeps_first] on [hits]: the README of [acme/server-a] is
    kept, and it is the first of its key. *)
Lemma uniqueRepos_keeps_first_witness :
  hit "acme/server-a" "README.md" ∈ server.uniqueRepos hits ∧
  ∃ before after,
    hits = (before ++ hit "acme/server-a" "README.md" :: after)%list ∧
    keyOf (hit "acme/server-a" "README.md") ∉ keyOf <$> before.
Proof.
  assert (hit "acme/server-a" "README.md" ∈ server.uniqueRepos hits) as Hin
    by (vm_compute; apply list_elem_of_here).
  split; [exact Hin|]. exact (uniqueRepos_keeps_first hits _ Hin).
Defined.

(** [SaveRepo_inserts_new] on the stored record and an empty table. *)
Lemma SaveRepo_inserts_new_witness :
  (∅ : gmap string Store.Row) !! FullName storedRepo = None ∧
  dbAccepts envChanged ∧
  ∃ w', run (utils.SaveRepo envChanged storedRepo true) ∅ = (Ok tt, w') ∧
        Store.proposed_manifest <$> table w' !! "acme/server-a" = Some None.
Proof.
  split; [apply lookup_empty|]. split; [apply sample_accepts|].
  destruct (SaveRepo_inserts_new envChanged storedRepo true ∅ (lookup_empty _)
              (sample_accepts _ _ _)) as (w' & Hrun & Htable).
  exists w'. split; [exact Hrun|]. rewrite Htable. reflexivity.
Defined.

(** [SaveRepo_touches_one_row] on the stored record and a table that
    holds a second repository as well. *)
Lemma SaveRepo_touches_one_row_witness :
  table (run (utils.SaveRepo envChanged storedRepo false) twoRows).2
    !! "acme/server-b"
  = twoRows !! "acme/server-b".
Proof.
  assert ("acme/server-b" ≠ FullName storedRepo) as Hne by discriminate.
  exact (proj1 (SaveRepo_touches_one_row envChanged storedRepo false
                  twoRows _ _ (run_pair _ _)) "acme/server-b" Hne).
Defined.

(** [SaveRepo_upserts] on the stored record and the stored table. *)
Lemma SaveRepo_upserts_witness :
  dbAccepts envChanged ∧
  ∃ w', run (utils.SaveRepo envChanged storedRepo true) storedTable
        = (Ok tt, w') ∧
        dom (table w') = {[FullName storedRepo]} ∪ dom storedTable.
Proof.
  split; [apply sample_accepts|].
  exact (SaveRepo_upserts envChanged storedRepo true storedTable
           (sample_accepts _ _ _)).
Defined.

(** [AddRepo_touches_one_row] on a forced run over a table that holds a
    second repository as well: its row is as it was. *)
Lemma AddRepo_touches_one_row_witness :
  table (run (server.AddRepo (codec := json) envChanged "acme" "server-a"
                "README.md" true) twoRows).2 !! "acme/server-b"
  = twoRows !! "acme/server-b".
Proof.
  assert (∀ g, github_Get envChanged "acme" "server-a" = Ok g →
               "acme/server-b" ≠ derive.fullName g "README.md") as Hne
    by (intros g [= <-]; discriminate).
  exact (proj1 (AddRepo_touches_one_row (codec := json) envChanged "acme"
                  "server-a" "README.md" true twoRows _ _ (run_pair _ _))
           "acme/server-b" Hne).
Defined.

(** [processRepos_keeps_accepted] on two candidates, the first of a
    repository that is gone, the second the sample, whose README changed:
    both are visited and the accepted manifest stays. *)
Lemma processRepos_keeps_accepted_witness :
  selectWorks envChanged ∧
  githubGets
    (trace (run (server_crawl.processRepos (codec := json) envChanged
                   [goneResult; codeResult] false) storedTable).2)
  = [("acme", "server-z"); ("acme", "server-a")] ∧
  keepsAccepted storedTable
    (table (run (server_crawl.processRepos (codec := json) envChanged
                   [goneResult; codeResult] false) storedTable).2).
Proof.
  split; [apply sample_selects|].
  destruct (processRepos_keeps_accepted (codec := json) envChanged
              [goneResult; codeResult] false storedTable _ _ (run_pair _ _))
    as (Hvisits & _ & Hkeep).
  split; [exact Hvisits|]. exact (Hkeep eq_refl (sample_selects _ _ _)).
Defined.

(** [addRepoHandler_keeps_accepted] on an authorized request for
    [github.com/acme/server-a] whose search finds a repository that is
    gone and the sample: the answer is 500, both were visited and the
    accepted manifest stays. *)
Lemma addRepoHandler_keeps_accepted_witness :
  (run (routes.addRepoHandler (codec := json) envChanged searchTwo
          (Some "secret") "secret" (Ok "github.com/acme/server-a"))
     storedTable).1 = Ok 500%Z ∧
  githubGets
    (trace (run (routes.addRepoHandler (codec := json) envChanged searchTwo
                   (Some "secret") "secret" (Ok "github.com/acme/server-a"))
              storedTable).2)
  = [("acme", "server-z"); ("acme", "server-a")] ∧
  keepsAccepted storedTable
    (table (run (routes.addRepoHandler (codec := json) envChanged searchTwo
                   (Some "secret") "secret" (Ok "github.com/acme/server-a"))
              storedTable).2).
Proof.
  assert (3 ≤ length (Strings.Split "github.com/acme/server-a" "/"))%nat
    as Hparts by (vm_compute; lia).
  split; [vm_compute; reflexivity|].
  destruct (addRepoHandler_keeps_accepted (codec := json) envChanged
              searchTwo (Some "secret") "secret"
              (Ok "github.com/acme/server-a") storedTable _ _ (run_pair _ _))
    as (Hvisits & _ & Hkeep).
  split; [|exact (Hkeep (sample_selects _ _ _))].
  exact (Hvisits "github.com/acme/server-a" [goneResult; codeResult]
           eq_refl eq_refl Hparts eq_refl).
Defined.

(** [no_configs_nothing_saved] with the codec that reads the empty
    object. *)
Lemma no_configs_nothing_saved_witness :
  openai_Chat envChanged "acme/server-a" readme_new = Ok [completion] ∧
  Unmarshal_manifest (JSON := jsonEmpty) completion = (zeroManifest, None) ∧
  Configs zeroManifest = [] ∧
  run (utils.UpdateRepo (codec := jsonEmpty) envChanged storedRepo false
         "acme/server-a" readme_new) storedTable
  = (Err (noManifestFound "acme/server-a"),
     {| table := storedTable;
        trace := [EvOpenAI "acme/server-a" readme_new] |}).
Proof.
  do 3 (split; [reflexivity|]).
  exact (proj1 (no_configs_nothing_saved (codec := jsonEmpty) envChanged
                  "acme/server-a" readme_new completion [] zeroManifest
                  eq_refl eq_refl eq_refl) storedRepo false storedTable).
Defined.

(** [AddRepo_writes_manifest_directly] on the sample as a new candidate. *)
Lemma AddRepo_writes_manifest_directly_witness :
  github_Get envChanged "acme" "server-a" = Ok repository ∧
  selectWorks envChanged ∧
  (∅ : gmap string Store.Row) !! "acme/server-a" = None ∧
  ∃ row',
    table (run (server.AddRepo (codec := json) envChanged "acme" "server-a"
                  "README.md" false) ∅).2 !! "acme/server-a" = Some row' ∧
    Store.manifest row'
      = Marshal_configs (JSON := json) [cfg "docker" false; cfg "npx" true] ∧
    Store.proposed_manifest row' = None.
Proof.
  split; [reflexivity|]. split; [apply sample_selects|].
  split; [apply lookup_empty|].
  assert ((run (server.AddRepo (codec := json) envChanged "acme" "server-a"
                  "README.md" false) ∅).1 = Ok tt) as Hok by reflexivity.
  destruct (AddRepo_writes_manifest_directly (codec := json) envChanged "acme"
              "server-a" "README.md" false ∅ repository readme_new completion
              [] analysis _ eq_refl eq_refl (sample_selects _ _ _) eq_refl
              eq_refl sample_metadata_nonempty
              (or_intror (or_introl (lookup_empty _))) (run_ok _ _ tt Hok))
    as (row' & Hrow & Hmanifest & _ & _ & _ & _ & Hproposed).
  exists row'. split; [exact Hrow|]. split; [exact Hmanifest|exact Hproposed].
Defined.

(** [UpdateRepo_metadata_decode_failure] on the record with broken
    metadata. *)
Lemma UpdateRepo_metadata_decode_failure_witness :
  Configs analysis ≠ [] ∧
  Metadata brokenRepo ≠ "" ∧
  Unmarshal_metadata (JSON := json) (Metadata brokenRepo)
    = Err "invalid character" ∧
  table (run (utils.UpdateRepo (codec := json) envChanged brokenRepo false
                "acme/server-a" readme_new) storedTable).2 = storedTable.
Proof.
  assert (Configs analysis ≠ []) as Hcfg by discriminate.
  assert (Metadata brokenRepo ≠ "") as Hmeta by discriminate.
  split; [exact Hcfg|]. split; [exact Hmeta|]. split; [reflexivity|].
  rewrite (UpdateRepo_metadata_decode_failure (codec := json) envChanged
             brokenRepo false "acme/server-a" readme_new completion []
             analysis "invalid character" storedTable eq_refl eq_refl Hcfg
             Hmeta eq_refl).
  reflexivity.
Defined.

(** [UpdateRepo_keeps_other_metadata] on the stored record. *)
Lemma UpdateRepo_keeps_other_metadata_witness :
  Metadata storedRepo ≠ "" ∧
  Unmarshal_metadata (JSON := json) (Metadata storedRepo)
    = Ok {["categories" := "Productivity,Verified"]} ∧
  ∃ row',
    table (run (utils.UpdateRepo (codec := json) envChanged storedRepo false
                  "acme/server-a" readme_new) storedTable).2
      !! "acme/server-a" = Some row' ∧
    Store.display_name row' = "Server A".
Proof.
  assert (Metadata storedRepo ≠ "") as Hmeta by (vm_compute; discriminate).
  split; [exact Hmeta|]. split; [reflexivity|].
  assert ((run (utils.UpdateRepo (codec := json) envChanged storedRepo false
                  "acme/server-a" readme_new) storedTable).1 = Ok tt) as Hok
    by reflexivity.
  destruct (UpdateRepo_keeps_other_metadata (codec := json) envChanged
              storedRepo false "acme/server-a" readme_new completion []
              analysis {["categories" := "Productivity,Verified"]} storedTable
              _ eq_refl eq_refl Hmeta eq_refl sample_metadata_nonempty
              (run_ok _ _ tt Hok))
    as (row' & Hrow & _ & _ & _ & Hname).
  exists row'. split; [exact Hrow|exact Hname].
Defined.

(** [UpdateRepo_keeps_tool_definitions] on the stored record, which has
    the tool definitions [[]]. *)
Lemma UpdateRepo_keeps_tool_definitions_witness :
  ToolDefinitions storedRepo ≠ "" ∧
  ToolDefinitions storedRepo ≠ "{}" ∧
  ∃ row',
    table (run (utils.UpdateRepo (codec := json) envChanged storedRepo false
                  "acme/server-a" readme_new) storedTable).2
      !! "acme/server-a" = Some row' ∧
    Store.tool_definitions row' = "[]".
Proof.
  assert (ToolDefinitions storedRepo ≠ "") as Hne1 by discriminate.
  assert (ToolDefinitions storedRepo ≠ "{}") as Hne2 by discriminate.
  split; [exact Hne1|]. split; [exact Hne2|].
  exact (proj2 (UpdateRepo_keeps_tool_definitions (codec := json) envChanged
                  storedRepo "acme/server-a" readme_new storedTable _ _
                  Hne1 Hne2 (run_pair _ _)) eq_refl).
Defined.

(** [AddRepo_resets_tool_definitions] on the stored row, which has the
    tool definitions [[]]. *)
Lemma AddRepo_resets_tool_definitions_witness :
  storedTable !! "acme/server-a" = Some storedRow ∧
  Store.readme_content storedRow ≠ readme_new ∧
  Store.tool_definitions storedRow ≠ "" ∧
  Store.tool_definitions storedRow ≠ "{}" ∧
  ∃ row',
    table (run (server.AddRepo (codec := json) envChanged "acme" "server-a"
                  "README.md" false) storedTable).2 !! "acme/server-a"
      = Some row' ∧
    Store.tool_definitions row' = "{}".
Proof.
  assert (Store.readme_content storedRow ≠ readme_new) as Hdiff
    by (vm_compute; discriminate).
  assert (Store.tool_definitions storedRow ≠ "") as Hne1 by discriminate.
  assert (Store.tool_definitions storedRow ≠ "{}") as Hne2 by discriminate.
  split; [reflexivity|]. split; [exact Hdiff|]. split; [exact Hne1|].
  split; [exact Hne2|].
  exact (proj2 (AddRepo_resets_tool_definitions (codec := json) envChanged
                  "acme" "server-a" "README.md" storedTable repository
                  storedRow readme_new _ _ eq_refl eq_refl
                  (sample_selects _ _ _) eq_refl Hdiff Hne1 Hne2
                  (run_pair _ _)) eq_refl).
Defined.

(** [derived_names] on [README.md] and the directory [docs/server]. *)
Lemma derived_names_witness :
  Strings.Contains "README.md" "/" = false ∧
  derive.fullName repository "README.md" = "acme/server-a" ∧
  derive.fullName repository "docs/server/README.md"
    = "acme/server-a/docs/server".
Proof.
  split; [reflexivity|].
  destruct (derived_names repository "README.md" eq_refl)
    as (Htop & _ & Hnested & _).
  split; [exact Htop|]. exact (proj1 (Hnested "docs/server")).
Defined.

(** [searchBatches_enough_fuel] on seventeen links and a bound of
    twenty. *)
Lemma searchBatches_enough_fuel_witness :
  (length links ≤ 20)%nat ∧
  server_crawl.batchLoop searchLimited 5 links 20 0 [] []
  = server_crawl.searchBatches searchLimited 5 links.
Proof.
  assert (length links ≤ 20)%nat as Hfuel by (vm_compute; lia).
  split; [exact Hfuel|].
  exact (searchBatches_enough_fuel searchLimited 5 links 20 Hfuel).
Defined.

(** [later_AddRepo_drops_icon_error] on the stored row, whose icon is
    empty, and a database that rejects the update. *)
Lemma later_AddRepo_drops_icon_error_witness :
  Store.icon storedRow = "" ∧
  db_error envIconDown
    (Store.Exec (Store.UpdateIcon (github.OwnerAvatarURL repository)
                   "acme/server-a")) = Some "connection refused" ∧
  (run (server_refactored.AddRepo (codec := json) envIconDown "acme"
          "server-a" "README.md" false) storedTable).1 = Ok tt.
Proof.
  split; [reflexivity|]. split; [reflexivity|].
  rewrite (later_AddRepo_drops_icon_error (codec := json) envIconDown "acme"
             "server-a" "README.md" storedTable repository storedRow
             "connection refused" eq_refl eq_refl eq_refl eq_refl eq_refl
             eq_refl eq_refl).
  reflexivity.
Defined.

(** [addRepoHandler_refuses] on a request without the cookie, and on an
    authorized request that names [acme/server-a] without a host. *)
Lemma addRepoHandler_refuses_witness :
  (run (routes.addRepoHandler (codec := json) envChanged search None "secret"
          (Ok "github.com/acme/server-a")) storedTable).1 = Ok 401%Z ∧
  (run (routes.addRepoHandler (codec := json) envChanged search
          (Some "secret") "secret" (Ok "acme/server-a")) storedTable).1
  = Ok 400%Z.
Proof.
  assert (length (Strings.Split "acme/server-a" "/") < 3)%nat as Hparts
    by (vm_compute; lia).
  split.
  - rewrite (proj1 (addRepoHandler_refuses (codec := json) envChanged search
                      None "secret" (Ok "github.com/acme/server-a")
                      storedTable) eq_refl).
    reflexivity.
  - rewrite (proj2 (proj2 (addRepoHandler_refuses (codec := json) envChanged
                             search (Some "secret") "secret"
                             (Ok "acme/server-a") storedTable) eq_refl)
               "acme/server-a" eq_refl Hparts).
    reflexivity.
Defined.

(** [AddRepo_github_failure] on a repository GitHub does not know, and on
    a path that is not in the repository. *)
Lemma AddRepo_github_failure_witness :
  (run (server.AddRepo (codec := json) envChanged "acme" "server-z"
          "README.md" false) storedTable).1 = Err "404 Not Found" ∧
  table (run (server.AddRepo (codec := json) envChanged "acme" "server-a"
                "docs/README.md" true) storedTable).2 = storedTable.
Proof.
  split.
  - rewrite (proj1 (AddRepo_github_failure (codec := json) envChanged "acme"
                      "server-z" "README.md" false storedTable)
               "404 Not Found" eq_refl).
    reflexivity.
  - rewrite (proj2 (AddRepo_github_failure (codec := json) envChanged "acme"
                      "server-a" "docs/README.md" true storedTable)
               repository "404 Not Found" eq_refl eq_refl).
    reflexivity.
Defined.

End MoreExamples.
